(** * drive-backup.py: streaming backup jobs, retention and orchestration

    A shallow embedding of [drive-backup.py].  The script is a sequence of
    effects on three things: the local scratch directory [TEMP_DIR] (which
    holds the log file), the processes it starts, and the directory of
    backups on the remote.  These are the fields of [World]; every function
    of the script is a computation in an exception-and-state monad over it.

    What the script does not decide is taken from an environment [Env]: the
    effective user id, which backup targets exist on disk, and with which
    exit status and error text each external command ends.

    Conventions of the model:
    - a pipeline is its processes, started in order and waited for in the
      order of the [communicate] calls; what flows through the pipes is not
      modelled, only how each process ends;
    - the script is given twice: first for runs in which every program can
      be started and [TEMP_DIR] can be made, written and removed, which is
      what the statements about exit statuses are about; then, in
      [Fallible], with the calls that raise when that is not so;
    - names are byte strings (UTF-8), whose lexicographic order is the
      code-point order in which Python compares [str];
    - the output of [rclone lsjson] is kept as the list of entries that
      [json.loads] would return. *)

From Stdlib Require Import String Ascii List ZArith Bool Arith Lia.
From Stdlib Require Import Sorted Permutation DecimalString.
Import ListNotations.

Local Open Scope list_scope.
Local Open Scope string_scope.

(** ** Data *)

Inductive Level := INFO | WARN | ERROR.

Definition level_name (l : Level) : string :=
  match l with INFO => "INFO" | WARN => "WARN" | ERROR => "ERROR" end.

Definition is_error (l : Level) : bool :=
  match l with ERROR => true | _ => false end.

(** One line of the log.  The script prefixes each line with the wall-clock
    time; that prefix is left out here. *)
Record LogEntry := { level : Level; message : string }.

Definition entry_text (e : LogEntry) : string :=
  "[" ++ level_name (level e) ++ "] " ++ message e.

(** An item of [rclone lsjson]: the script reads only ['Name']. *)
Record RemoteEntry := { Name : string; IsDir : bool }.

(** How an external process ended. *)
Record ExitStatus := { code : Z; err : string }.

(** What a process wrote to its standard output: for [lsjson] a JSON
    document, which is kept parsed; anything else is text. *)
Inductive Stdout :=
| Text (s : string)
| Listing (l : list RemoteEntry).

(** The result of [subprocess.run(..., capture_output=True, text=True)]. *)
Record CompletedProcess :=
  { returncode : Z; stdout : Stdout; stderr : string }.

(** The module-level constants of the script. *)
Record Config := {
  RCLONE_REMOTE : string;
  BASE_REMOTE_PATH : string;
  MAX_BACKUPS : nat;
  TIMESTAMP : string;
  TEMP_DIR : string;
  DB_USER : string;
  DB_PASS : string;
  DB_NAME : string;
  BACKUP_TARGETS : list (string * string)
}.

Definition LOG_FILE_PATH (cfg : Config) : string :=
  TEMP_DIR cfg ++ "/" ++ "backup_log_" ++ TIMESTAMP cfg ++ ".txt".

Definition CURRENT_BACKUP_REMOTE_DIR (cfg : Config) : string :=
  BASE_REMOTE_PATH cfg ++ "/backup_" ++ TIMESTAMP cfg.

(** The configuration as the script has it; [ts] is the value that
    [datetime.now().strftime('%Y%m%d_%H%M%S')] gave when the module loaded. *)
Definition config (ts : string) : Config := {|
  RCLONE_REMOTE := "gdrive";
  BASE_REMOTE_PATH := "backups/automated_server_backups";
  MAX_BACKUPS := 14;
  TIMESTAMP := ts;
  TEMP_DIR := "/root/drive-backup-temp-path";
  DB_USER := "prestashop";
  DB_PASS := "REPLACE_ME";
  DB_NAME := "prestashop";
  BACKUP_TARGETS :=
    [ ("apache2_config", "/etc/apache2");
      ("letsencrypt_config", "/etc/letsencrypt");
      ("wireguard_data", "/var/lib/docker/volumes/wg-easy_etc_wireguard/_data/");
      ("wireguard_compose", "/root/wg-easy");
      ("website_html", "/var/www/html");
      ("terraria_server", "/home/amp/.ampdata/instances/Terraria_Vanilla_02_202601/Terraria");
      ("minecraft_server", "/home/amp/.ampdata/instances/Cobblemon_1_21_101/Minecraft");
      ("ufw_etc", "/etc/ufw");
      ("ufw_defaults", "/etc/default/ufw");
      ("drive_backup_script", "/root/drive-backup.py");
      ("php_config", "/etc/php/") ]
|}.

(** The environment of one invocation. [path_exists] answers
    [os.path.exists] for the backup targets (which lie outside [TEMP_DIR]);
    [outcome] gives, for each command line, how that process ends. *)
Record Env := {
  euid : Z;
  path_exists : string -> bool;
  outcome : list string -> ExitStatus
}.

(** The state the script acts on.
    - [temp_dir]: [None] when [TEMP_DIR] does not exist, [Some l] when it
      does and the run's log file holds the lines [l];
    - [console]: what was printed;
    - [spawned]: the command line of every process started, oldest first;
    - [remote]: the entries directly under [BASE_REMOTE_PATH] on the remote. *)
Record World := {
  temp_dir : option (list LogEntry);
  console : list string;
  spawned : list (list string);
  remote : list RemoteEntry
}.

Definition log_of (w : World) : list LogEntry :=
  match temp_dir w with Some l => l | None => [] end.

(** ** Strings *)

(** [s.lstrip("/")] *)
Fixpoint lstrip_slash (s : string) : string :=
  match s with
  | String c s' => if (c =? "/")%char then lstrip_slash s' else s
  | EmptyString => EmptyString
  end.

(** [str(n)] for a length. *)
Definition str_of_nat (n : nat) : string :=
  NilEmpty.string_of_uint (Nat.to_uint n).

(** [s] without the prefix [p], when it has it. *)
Fixpoint strip_prefix (p s : string) : option string :=
  match p with
  | EmptyString => Some s
  | String a p' =>
      match s with
      | String b s' => if (a =? b)%char then strip_prefix p' s' else None
      | EmptyString => None
      end
  end.

(** The first segment of a relative path. *)
Fixpoint top_dir (rel : string) : string :=
  match rel with
  | String c s' => if (c =? "/")%char then EmptyString else String c (top_dir s')
  | EmptyString => EmptyString
  end.

Fixpoint no_slash (s : string) : bool :=
  match s with
  | String c s' => negb (c =? "/")%char && no_slash s'
  | EmptyString => true
  end.

(** ** The exception-and-state monad

    A Python exception leaves the effects that happened before it in place,
    so a computation returns the world together with its result. *)

Inductive Result (A : Type) :=
| Ok (a : A)
| Raise (msg : string).
Arguments Ok {A} a.
Arguments Raise {A} msg.

Definition M (A : Type) : Type := World -> Result A * World.

Definition ret {A} (a : A) : M A := fun w => (Ok a, w).

Definition bind {A B} (m : M A) (k : A -> M B) : M B :=
  fun w => match m w with
           | (Ok a, w') => k a w'
           | (Raise e, w') => (Raise e, w')
           end.

Definition raise {A} (e : string) : M A := fun w => (Raise e, w).

(** [try: m  except Exception as e: h e] *)
Definition try_except {A} (m : M A) (h : string -> M A) : M A :=
  fun w => match m w with
           | (Raise e, w') => h e w'
           | r => r
           end.

(** [try: m  finally: f] *)
Definition try_finally {A} (m : M A) (f : M unit) : M A :=
  fun w => match m w with
           | (r, w') =>
               match f w' with
               | (Ok _, w'') => (r, w'')
               | (Raise e, w'') => (Raise e, w'')
               end
           end.

Declare Scope backup_scope.
Delimit Scope backup_scope with backup.
Notation "x <- m ;; k" := (bind m (fun x => k))
  (at level 61, m at next level, right associativity) : backup_scope.
Notation "m ;; k" := (bind m (fun _ => k))
  (at level 61, right associativity) : backup_scope.
Local Open Scope backup_scope.

(** [for x in l: body x] *)
Fixpoint for_each {A} (l : list A) (body : A -> M unit) : M unit :=
  match l with
  | [] => ret tt
  | x :: l' => body x ;; for_each l' body
  end.

(** ** Sorting by name

    [list.sort(key=lambda x: x['Name'])]: a stable sort, ascending in the
    order of [str], which compares code point by code point. *)

Fixpoint insert_by_name (x : RemoteEntry) (l : list RemoteEntry) : list RemoteEntry :=
  match l with
  | [] => [x]
  | y :: l' =>
      if (Name x <=? Name y)%string then x :: l else y :: insert_by_name x l'
  end.

Fixpoint sort_by_name (l : list RemoteEntry) : list RemoteEntry :=
  match l with
  | [] => []
  | x :: l' => insert_by_name x (sort_by_name l')
  end.

(** ** The remote-storage collaborator

    The effect of an [rclone] command that ends with status 0 on the
    entries under the base path: [mkdir], [rcat] and [copy] leave the
    directory they address in place, [purge] removes it.  [lsjson
    --dirs-only] changes nothing and prints the directories. *)

Definition is_dir_named (n : string) (e : RemoteEntry) : bool :=
  IsDir e && (Name e =? n)%string.

Definition ensure_dir (n : string) (r : list RemoteEntry) : list RemoteEntry :=
  if existsb (is_dir_named n) r then r
  else (r ++ [ {| Name := n; IsDir := true |} ])%list.

Definition remove_dir (n : string) (r : list RemoteEntry) : list RemoteEntry :=
  filter (fun e => negb (is_dir_named n e)) r.

Section Program.

Variable cfg : Config.
Variable env : Env.

Definition base_url : string := RCLONE_REMOTE cfg ++ ":" ++ BASE_REMOTE_PATH cfg.

Definition under_base (dest : string) : option string :=
  strip_prefix (base_url ++ "/") dest.

Definition touch (dest : string) (r : list RemoteEntry) : list RemoteEntry :=
  match under_base dest with
  | Some rel => ensure_dir (top_dir rel) r
  | None => r
  end.

Definition rclone_effect (argv : list string) (r : list RemoteEntry) : list RemoteEntry :=
  match argv with
  | prog :: sub :: dest :: rest =>
      if negb (prog =? "rclone")%string then r
      else if (sub =? "mkdir")%string then touch dest r
      else if (sub =? "rcat")%string then touch dest r
      else if (sub =? "copy")%string then
        match rest with dest' :: _ => touch dest' r | [] => r end
      else if (sub =? "purge")%string then
        match under_base dest with
        | Some n => remove_dir n r
        | None => r
        end
      else r
  | _ => r
  end.

Definition rclone_stdout (argv : list string) (r : list RemoteEntry) : Stdout :=
  match argv with
  | prog :: sub :: dest :: _ =>
      if (prog =? "rclone")%string && (sub =? "lsjson")%string
         && (dest =? base_url)%string && (code (outcome env argv) =? 0)%Z
      then Listing (filter IsDir r)
      else Text ""
  | _ => Text ""
  end.

(** ** Primitive effects *)

(** The world after a process with command line [argv] was started. *)
Definition ran (argv : list string) (w : World) : World :=
  {| temp_dir := temp_dir w; console := console w;
     spawned := spawned w ++ [argv]; remote := remote w |}.

(** The world after that process ended. *)
Definition finished (argv : list string) (w : World) : World :=
  {| temp_dir := temp_dir w; console := console w; spawned := spawned w;
     remote := if (code (outcome env argv) =? 0)%Z
               then rclone_effect argv (remote w) else remote w |}.

(** The world after [e] was printed and appended to the log file. *)
Definition logged (e : LogEntry) (w : World) : World :=
  {| temp_dir := Some (log_of w ++ [e])%list;
     console := console w ++ [entry_text e];
     spawned := spawned w; remote := remote w |}.

Definition printed (s : string) (w : World) : World :=
  {| temp_dir := temp_dir w; console := console w ++ [s];
     spawned := spawned w; remote := remote w |}.

Definition removed_temp (w : World) : World :=
  {| temp_dir := None; console := console w;
     spawned := spawned w; remote := remote w |}.

Definition print (s : string) : M unit := fun w => (Ok tt, printed s w).

(** [os.path.exists(TEMP_DIR)] *)
Definition temp_dir_exists : M bool :=
  fun w => (Ok (match temp_dir w with Some _ => true | None => false end), w).

(** [os.makedirs(TEMP_DIR, mode=0o700, exist_ok=True)] *)
Definition makedirs_temp : M unit :=
  fun w => match temp_dir w with
           | Some _ => (Ok tt, w)
           | None => (Ok tt, {| temp_dir := Some []; console := console w;
                               spawned := spawned w; remote := remote w |})
           end.

(** [with open(LOG_FILE_PATH, "a") as f: f.write(entry + "\n")]: fails when
    the directory is missing.  Here the file can always be written; see
    [Fallible.append_log] for the call that can fail. *)
Definition append_log (e : LogEntry) : M unit :=
  fun w => match temp_dir w with
           | Some l => (Ok tt, {| temp_dir := Some (l ++ [e])%list; console := console w;
                                  spawned := spawned w; remote := remote w |})
           | None => (Raise ("FileNotFoundError: " ++ LOG_FILE_PATH cfg), w)
           end.

(** [shutil.rmtree(TEMP_DIR)] *)
Definition rmtree_temp : M unit := fun w => (Ok tt, removed_temp w).

(** [subprocess.Popen(argv, ...)]: the handle is the command line.  The
    program is one that can be started; see [Fallible.Popen]. *)
Definition Popen (argv : list string) : M (list string) :=
  fun w => (Ok argv, ran argv w).

(** [p.communicate()], with [p.returncode] and the captured error text. *)
Definition communicate (p : list string) : M ExitStatus :=
  fun w => (Ok (outcome env p), finished p w).

(** [subprocess.run(argv, ...)], the program being one that can be
    started; see [Fallible.subprocess_run] for the call that can fail. *)
Definition subprocess_run (argv : list string) : M CompletedProcess :=
  fun w =>
    (Ok {| returncode := code (outcome env argv);
           stdout := rclone_stdout argv (remote w);
           stderr := err (outcome env argv) |},
     finished argv (ran argv w)).

(** [json.loads(s)] where a list of entries is expected. *)
Definition json_loads (s : Stdout) : M (list RemoteEntry) :=
  match s with
  | Listing l => ret l
  | Text _ => raise "JSONDecodeError"
  end.

(** ** The script *)

Definition ensure_temp_dir : M unit :=
  ex <- temp_dir_exists ;;
  if negb ex then makedirs_temp else ret tt.

Definition log (message : string) (level : Level) : M unit :=
  ensure_temp_dir ;;
  let entry := {| level := level; message := message |} in
  print (entry_text entry) ;;
  append_log entry.

Definition run_rclone_cmd (args : list string) (check : bool) : M Stdout :=
  let cmd := "rclone" :: args in
  result <- subprocess_run cmd ;;
  (if negb (returncode result =? 0)%Z then
     log ("Rclone command failed: " ++ String.concat " " cmd) ERROR ;;
     log ("Rclone Stderr: " ++ stderr result) ERROR ;;
     if check then raise ("Rclone failed: " ++ stderr result) else ret tt
   else ret tt) ;;
  ret (stdout result).

Definition backup_database_stream : M unit :=
  let filename := "database.sql.gz" in
  let remote_dest :=
    RCLONE_REMOTE cfg ++ ":" ++ CURRENT_BACKUP_REMOTE_DIR cfg ++ "/" ++ filename in
  log ("Starting Database Stream to: " ++ remote_dest) INFO ;;
  p1_dump <- Popen ["mysqldump"; "-u"; DB_USER cfg; DB_NAME cfg;
                    "--single-transaction"; "--quick"] ;;
  p2_gzip <- Popen ["gzip"; "-c"] ;;
  p3_rclone <- Popen ["rclone"; "rcat"; remote_dest; "--stats"; "5s"] ;;
  rclone <- communicate p3_rclone ;;
  gzip <- communicate p2_gzip ;;
  dump <- communicate p1_dump ;;
  if negb (code rclone =? 0)%Z then
    raise ("Rclone DB Upload Failed: " ++ err rclone)
  else if negb (code dump =? 0)%Z then
    raise ("Mysqldump Failed: " ++ err dump)
  else
    log "Database stream completed successfully." INFO.

(** The loop over [BACKUP_TARGETS.items()], threading [tar_cmd] and
    [valid_targets_count]. *)
Fixpoint collect_targets (targets : list (string * string))
    (tar_cmd : list string) (valid_targets_count : nat) : M (list string * nat) :=
  match targets with
  | [] => ret (tar_cmd, valid_targets_count)
  | (name, path) :: rest =>
      if path_exists env path then
        collect_targets rest (tar_cmd ++ [lstrip_slash path])%list (valid_targets_count + 1)
      else
        log ("Not Found: " ++ path) WARN ;;
        collect_targets rest tar_cmd valid_targets_count
  end.

Definition backup_files_stream : M unit :=
  let filename := "files.tar.gz" in
  let remote_dest :=
    RCLONE_REMOTE cfg ++ ":" ++ CURRENT_BACKUP_REMOTE_DIR cfg ++ "/" ++ filename in
  log ("Starting File Stream to: " ++ remote_dest) INFO ;;
  r <- collect_targets (BACKUP_TARGETS cfg) ["tar"; "-czf"; "-"; "-C"; "/"] 0 ;;
  let tar_cmd := fst r in
  let valid_targets_count := snd r in
  if (valid_targets_count =? 0)%nat then
    log "No valid targets found to backup! Aborting file stream." ERROR
  else
    p1_tar <- Popen tar_cmd ;;
    p2_rclone <- Popen ["rclone"; "rcat"; remote_dest; "--stats"; "10s"] ;;
    rclone <- communicate p2_rclone ;;
    tar <- communicate p1_tar ;;
    if negb (code rclone =? 0)%Z then
      log ("Rclone File Upload Failed: " ++ err rclone) ERROR ;;
      raise "File stream upload failed"
    else
      (if (1 <? code tar)%Z then
         log ("Tar Fatal Error: " ++ err tar) ERROR ;;
         raise "Tar compression failed"
       else if (code tar =? 1)%Z then
         log "Tar warning (files changed during read), continuing..." WARN
       else ret tt) ;;
      log "File stream completed successfully." INFO.

Definition manage_retention : M unit :=
  log "Checking retention policy..." INFO ;;
  ls_out <- run_rclone_cmd ["lsjson"; RCLONE_REMOTE cfg ++ ":" ++ BASE_REMOTE_PATH cfg;
                            "--dirs-only"] true ;;
  dirs <- json_loads ls_out ;;
  let backup_dirs :=
    sort_by_name (filter (fun d => prefix "backup_" (Name d)) dirs) in
  log ("Found " ++ str_of_nat (length backup_dirs) ++ " backup folders.") INFO ;;
  if (MAX_BACKUPS cfg <? length backup_dirs)%nat then
    let to_delete := firstn (length backup_dirs - MAX_BACKUPS cfg) backup_dirs in
    log ("Retention exceeded. Deleting " ++ str_of_nat (length to_delete)
         ++ " old folders.") INFO ;;
    for_each to_delete (fun item =>
      let folder_name := Name item in
      log ("Purging old backup folder: " ++ folder_name) INFO ;;
      run_rclone_cmd ["purge"; RCLONE_REMOTE cfg ++ ":" ++ BASE_REMOTE_PATH cfg
                               ++ "/" ++ folder_name] true ;;
      ret tt)
  else
    log "Retention limit not reached." INFO.

(** The body of the [try] in [perform_backup]. *)
Definition backup_steps : M unit :=
  run_rclone_cmd ["mkdir"; RCLONE_REMOTE cfg ++ ":" ++ CURRENT_BACKUP_REMOTE_DIR cfg]
                 false ;;
  backup_database_stream ;;
  backup_files_stream ;;
  manage_retention.

Definition perform_backup : M unit :=
  ensure_temp_dir ;;
  log ("Backup job started. ID: " ++ TIMESTAMP cfg) INFO ;;
  try_finally
    (try_except backup_steps
       (fun e => log ("Backup failed: " ++ e) ERROR))
    (log "Backup finished. Uploading logs and cleaning up." INFO ;;
     subprocess_run ["rclone"; "copy"; LOG_FILE_PATH cfg;
                     RCLONE_REMOTE cfg ++ ":" ++ CURRENT_BACKUP_REMOTE_DIR cfg] ;;
     ex <- temp_dir_exists ;;
     if ex then rmtree_temp else ret tt).

(** The [__main__] block: the exit status of the process and the world it
    leaves.  An exception that nothing catches ends the process with
    status 1. *)
Definition main (w : World) : Z * World :=
  if negb (euid env =? 0)%Z then
    (1%Z, printed "Error: Must run as root." w)
  else
    match perform_backup w with
    | (Ok _, w') => (0%Z, w')
    | (Raise _, w') => (1%Z, w')
    end.

End Program.

(** ** Vocabulary of the statements *)

(** The backup naming convention: [d['Name'].startswith('backup_')]. *)
Definition matches_convention (e : RemoteEntry) : bool :=
  prefix "backup_" (Name e).

Definition name_le (a b : RemoteEntry) : Prop :=
  (Name a <=? Name b)%string = true.

(** The command lines the script builds. *)
Definition mkdir_cmd (cfg : Config) : list string :=
  ["rclone"; "mkdir"; RCLONE_REMOTE cfg ++ ":" ++ CURRENT_BACKUP_REMOTE_DIR cfg].

Definition dump_cmd (cfg : Config) : list string :=
  ["mysqldump"; "-u"; DB_USER cfg; DB_NAME cfg; "--single-transaction"; "--quick"].

Definition gzip_cmd : list string := ["gzip"; "-c"].

Definition rcat_db_cmd (cfg : Config) : list string :=
  ["rclone"; "rcat";
   RCLONE_REMOTE cfg ++ ":" ++ CURRENT_BACKUP_REMOTE_DIR cfg ++ "/" ++ "database.sql.gz";
   "--stats"; "5s"].

Definition rcat_files_cmd (cfg : Config) : list string :=
  ["rclone"; "rcat";
   RCLONE_REMOTE cfg ++ ":" ++ CURRENT_BACKUP_REMOTE_DIR cfg ++ "/" ++ "files.tar.gz";
   "--stats"; "10s"].

Definition lsjson_cmd (cfg : Config) : list string :=
  ["rclone"; "lsjson"; RCLONE_REMOTE cfg ++ ":" ++ BASE_REMOTE_PATH cfg; "--dirs-only"].

Definition purge_cmd (cfg : Config) (n : string) : list string :=
  ["rclone"; "purge"; RCLONE_REMOTE cfg ++ ":" ++ BASE_REMOTE_PATH cfg ++ "/" ++ n].

Definition copy_log_cmd (cfg : Config) : list string :=
  ["rclone"; "copy"; LOG_FILE_PATH cfg;
   RCLONE_REMOTE cfg ++ ":" ++ CURRENT_BACKUP_REMOTE_DIR cfg].

Definition existing_targets (cfg : Config) (env : Env) : list (string * string) :=
  filter (fun t => path_exists env (snd t)) (BACKUP_TARGETS cfg).

Definition missing_targets (cfg : Config) (env : Env) : list (string * string) :=
  filter (fun t => negb (path_exists env (snd t))) (BACKUP_TARGETS cfg).

Definition tar_cmd_of (cfg : Config) (env : Env) : list string :=
  (["tar"; "-czf"; "-"; "-C"; "/"]
   ++ map (fun t => lstrip_slash (snd t)) (existing_targets cfg env))%list.

(** The two lines [run_rclone_cmd] logs when [cmd] ends with [st]. *)
Definition rclone_failure_lines (cmd : list string) (st : ExitStatus) : list LogEntry :=
  if (code st =? 0)%Z then []
  else [ {| level := ERROR; message := "Rclone command failed: " ++ String.concat " " cmd |};
         {| level := ERROR; message := "Rclone Stderr: " ++ err st |} ].

Definition not_found_line (t : string * string) : LogEntry :=
  {| level := WARN; message := "Not Found: " ++ snd t |}.

Definition purging_line (d : RemoteEntry) : LogEntry :=
  {| level := INFO; message := "Purging old backup folder: " ++ Name d |}.

(** A directory is purged when its name is among [names]. *)
Definition purged_in (names : list string) (e : RemoteEntry) : bool :=
  IsDir e && existsb (String.eqb (Name e)) names.

Definition run_dir (cfg : Config) : RemoteEntry :=
  {| Name := "backup_" ++ TIMESTAMP cfg; IsDir := true |}.

(** ** Outcomes

    The lines the script logs, and the worlds its steps leave. *)

Section Outcomes.

Variable cfg : Config.
Variable env : Env.

Definition db_start_line : LogEntry :=
  {| level := INFO;
     message := "Starting Database Stream to: " ++ RCLONE_REMOTE cfg ++ ":"
                ++ CURRENT_BACKUP_REMOTE_DIR cfg ++ "/" ++ "database.sql.gz" |}.

Definition db_done_line : LogEntry :=
  {| level := INFO; message := "Database stream completed successfully." |}.

Definition files_start_line : LogEntry :=
  {| level := INFO;
     message := "Starting File Stream to: " ++ RCLONE_REMOTE cfg ++ ":"
                ++ CURRENT_BACKUP_REMOTE_DIR cfg ++ "/" ++ "files.tar.gz" |}.

Definition files_done_line : LogEntry :=
  {| level := INFO; message := "File stream completed successfully." |}.

Definition no_targets_line : LogEntry :=
  {| level := ERROR;
     message := "No valid targets found to backup! Aborting file stream." |}.

Definition tar_warning_line : LogEntry :=
  {| level := WARN;
     message := "Tar warning (files changed during read), continuing..." |}.

Definition checking_line : LogEntry :=
  {| level := INFO; message := "Checking retention policy..." |}.

Definition found_line (n : nat) : LogEntry :=
  {| level := INFO; message := "Found " ++ str_of_nat n ++ " backup folders." |}.

Definition exceeded_line (n : nat) : LogEntry :=
  {| level := INFO;
     message := "Retention exceeded. Deleting " ++ str_of_nat n ++ " old folders." |}.

Definition not_reached_line : LogEntry :=
  {| level := INFO; message := "Retention limit not reached." |}.

Definition started_line : LogEntry :=
  {| level := INFO; message := "Backup job started. ID: " ++ TIMESTAMP cfg |}.

Definition failed_line (e : string) : LogEntry :=
  {| level := ERROR; message := "Backup failed: " ++ e |}.

Definition closing_line : LogEntry :=
  {| level := INFO; message := "Backup finished. Uploading logs and cleaning up." |}.

(** The world after [run_rclone_cmd] logged the failure of [cmd]. *)
Definition rclone_failed (cmd : list string) (w : World) : World :=
  logged {| level := ERROR; message := "Rclone Stderr: " ++ err (outcome env cmd) |}
    (logged {| level := ERROR;
               message := "Rclone command failed: " ++ String.concat " " cmd |}
       (finished cfg env cmd (ran cmd w))).

(** The world once the three processes of the database pipeline ended. *)
Definition db_streamed (w : World) : World :=
  finished cfg env (dump_cmd cfg)
    (finished cfg env gzip_cmd
       (finished cfg env (rcat_db_cmd cfg)
          (ran (rcat_db_cmd cfg) (ran gzip_cmd (ran (dump_cmd cfg)
             (logged db_start_line w)))))).

(** The world after a warning was logged for each of [targets]. *)
Definition warned (targets : list (string * string)) (w : World) : World :=
  fold_left (fun w t => logged (not_found_line t) w) targets w.

(** The world once both processes of the archive pipeline ended. *)
Definition files_streamed (w : World) : World :=
  finished cfg env (tar_cmd_of cfg env)
    (finished cfg env (rcat_files_cmd cfg)
       (ran (rcat_files_cmd cfg) (ran (tar_cmd_of cfg env)
          (warned (missing_targets cfg env) (logged files_start_line w))))).

(** The body of the deletion loop. *)
Definition purge_item (item : RemoteEntry) : M unit :=
  let folder_name := Name item in
  log cfg ("Purging old backup folder: " ++ folder_name) INFO ;;
  run_rclone_cmd cfg env
    ["purge"; RCLONE_REMOTE cfg ++ ":" ++ BASE_REMOTE_PATH cfg ++ "/" ++ folder_name]
    true ;;
  ret tt.

(** The world after each of [D] was announced and purged. *)
Definition purged (D : list RemoteEntry) (w : World) : World :=
  fold_left
    (fun w d => finished cfg env (purge_cmd cfg (Name d))
                  (ran (purge_cmd cfg (Name d)) (logged (purging_line d) w)))
    D w.

(** The directories the listing shows that follow the naming convention,
    in the order of the sort. *)
Definition backup_dirs_of (w : World) : list RemoteEntry :=
  sort_by_name (filter matches_convention (filter IsDir (remote w))).

(** The world once the listing was read and counted. *)
Definition listed (w : World) : World :=
  logged (found_line (length (backup_dirs_of w)))
    (finished cfg env (lsjson_cmd cfg) (ran (lsjson_cmd cfg) (logged checking_line w))).

(** The world after the remote run directory was asked for. *)
Definition made_dir (w : World) : World :=
  if (code (outcome env (mkdir_cmd cfg)) =? 0)%Z
  then finished cfg env (mkdir_cmd cfg) (ran (mkdir_cmd cfg) w)
  else rclone_failed (mkdir_cmd cfg) w.

(** The world after the [finally] block. *)
Definition cleaned_up (w : World) : World :=
  removed_temp
    (finished cfg env (copy_log_cmd cfg) (ran (copy_log_cmd cfg) (logged closing_line w))).

End Outcomes.

(** A delete call: [rclone purge ...]. *)
Definition is_purge (argv : list string) : bool :=
  match argv with
  | prog :: sub :: _ => (prog =? "rclone")%string && (sub =? "purge")%string
  | _ => false
  end.

(** ** Scenarios *)

Definition dir (n : string) : RemoteEntry := {| Name := n; IsDir := true |}.

Definition empty_world (r : list RemoteEntry) : World :=
  {| temp_dir := None; console := []; spawned := []; remote := r |}.

Definition succeeded : ExitStatus := {| code := 0; err := "" |}.

(** Every command ends with status 0 and every target exists. *)
Definition all_ok : Env :=
  {| euid := 0; path_exists := fun _ => true; outcome := fun _ => succeeded |}.

(** As [all_ok], but the command line [bad] ends with [st]. *)
Definition failing (bad : list string) (st : ExitStatus) : Env :=
  {| euid := 0; path_exists := fun _ => true;
     outcome := fun argv =>
       if list_eq_dec string_dec argv bad then st else succeeded |}.

Definition no_targets : Env :=
  {| euid := 0; path_exists := fun _ => false; outcome := fun _ => succeeded |}.

Definition not_root : Env :=
  {| euid := 1000; path_exists := fun _ => true; outcome := fun _ => succeeded |}.

Definition january (days : list string) : list RemoteEntry :=
  map (fun d => dir ("backup_202601" ++ d ++ "_030000")) days.

(** Twenty nightly backups, as the remote lists them (newest first). *)
Definition twenty_backups : list RemoteEntry :=
  january ["20"; "19"; "18"; "17"; "16"; "15"; "14"; "13"; "12"; "11";
           "10"; "09"; "08"; "07"; "06"; "05"; "04"; "03"; "02"; "01"].

Definition sixteen_backups : list RemoteEntry :=
  january ["16"; "15"; "14"; "13"; "12"; "11";
           "10"; "09"; "08"; "07"; "06"; "05"; "04"; "03"; "02"; "01"].

Definition ten_backups : list RemoteEntry :=
  january ["10"; "09"; "08"; "07"; "06"; "05"; "04"; "03"; "02"; "01"].

(** The run of 21 January 2026, 03:00:00. *)
Definition cfg21 : Config := config "20260121_030000".

(** ** When a program cannot be started or the log not written

    The script above is the script in an environment where every program
    it names can be started and the scratch directory can be made, written
    and removed.  [Fallible] is the script without that assumption: the
    same text over primitives that raise where Python's do.  What can go
    wrong is described by [Faults]; with [no_faults] the two coincide.  An
    exception is rendered as the name of its class and what it is about. *)

Record Faults := {
  (** whether the program of a command line can be started; when it cannot,
      [subprocess.Popen] and [subprocess.run] raise [FileNotFoundError] *)
  can_start : list string -> bool;
  (** whether [os.makedirs(TEMP_DIR)] succeeds when the directory is missing *)
  can_make_temp : bool;
  (** whether the log file, holding the given lines, can be opened and
      written once more *)
  can_append : list LogEntry -> bool;
  (** whether [shutil.rmtree(TEMP_DIR)] succeeds *)
  can_remove : bool
}.

Definition no_faults : Faults :=
  {| can_start := fun _ => true; can_make_temp := true;
     can_append := fun _ => true; can_remove := true |}.

Module Fallible.

Section Program.

Variable cfg : Config.
Variable env : Env.
Variable faults : Faults.

(** [os.makedirs(TEMP_DIR, mode=0o700, exist_ok=True)] *)
Definition makedirs_temp : M unit :=
  fun w => match temp_dir w with
           | Some _ => (Ok tt, w)
           | None =>
               if can_make_temp faults then
                 (Ok tt, {| temp_dir := Some []; console := console w;
                            spawned := spawned w; remote := remote w |})
               else (Raise ("PermissionError: " ++ TEMP_DIR cfg), w)
           end.

(** [with open(LOG_FILE_PATH, "a") as f: f.write(entry + "\n")] *)
Definition append_log (e : LogEntry) : M unit :=
  fun w => match temp_dir w with
           | Some l =>
               if can_append faults l then
                 (Ok tt, {| temp_dir := Some (l ++ [e])%list; console := console w;
                            spawned := spawned w; remote := remote w |})
               else (Raise ("OSError: " ++ LOG_FILE_PATH cfg), w)
           | None => (Raise ("FileNotFoundError: " ++ LOG_FILE_PATH cfg), w)
           end.

(** [shutil.rmtree(TEMP_DIR)] *)
Definition rmtree_temp : M unit :=
  fun w => if can_remove faults then (Ok tt, removed_temp w)
           else (Raise ("OSError: " ++ TEMP_DIR cfg), w).

(** [subprocess.Popen(argv, ...)] *)
Definition Popen (argv : list string) : M (list string) :=
  fun w => if can_start faults argv then (Ok argv, ran argv w)
           else (Raise ("FileNotFoundError: " ++ hd "" argv), w).

(** [subprocess.run(argv, ...)] *)
Definition subprocess_run (argv : list string) : M CompletedProcess :=
  fun w =>
    if can_start faults argv then
      (Ok {| returncode := code (outcome env argv);
             stdout := rclone_stdout cfg env argv (remote w);
             stderr := err (outcome env argv) |},
       finished cfg env argv (ran argv w))
    else (Raise ("FileNotFoundError: " ++ hd "" argv), w).

Definition ensure_temp_dir : M unit :=
  ex <- temp_dir_exists ;;
  if negb ex then makedirs_temp else ret tt.

Definition log (message : string) (level : Level) : M unit :=
  ensure_temp_dir ;;
  let entry := {| level := level; message := message |} in
  print (entry_text entry) ;;
  append_log entry.

Definition run_rclone_cmd (args : list string) (check : bool) : M Stdout :=
  let cmd := "rclone" :: args in
  result <- subprocess_run cmd ;;
  (if negb (returncode result =? 0)%Z then
     log ("Rclone command failed: " ++ String.concat " " cmd) ERROR ;;
     log ("Rclone Stderr: " ++ stderr result) ERROR ;;
     if check then raise ("Rclone failed: " ++ stderr result) else ret tt
   else ret tt) ;;
  ret (stdout result).

Definition backup_database_stream : M unit :=
  let filename := "database.sql.gz" in
  let remote_dest :=
    RCLONE_REMOTE cfg ++ ":" ++ CURRENT_BACKUP_REMOTE_DIR cfg ++ "/" ++ filename in
  log ("Starting Database Stream to: " ++ remote_dest) INFO ;;
  p1_dump <- Popen ["mysqldump"; "-u"; DB_USER cfg; DB_NAME cfg;
                    "--single-transaction"; "--quick"] ;;
  p2_gzip <- Popen ["gzip"; "-c"] ;;
  p3_rclone <- Popen ["rclone"; "rcat"; remote_dest; "--stats"; "5s"] ;;
  rclone <- communicate cfg env p3_rclone ;;
  gzip <- communicate cfg env p2_gzip ;;
  dump <- communicate cfg env p1_dump ;;
  if negb (code rclone =? 0)%Z then
    raise ("Rclone DB Upload Failed: " ++ err rclone)
  else if negb (code dump =? 0)%Z then
    raise ("Mysqldump Failed: " ++ err dump)
  else
    log "Database stream completed successfully." INFO.

Fixpoint collect_targets (targets : list (string * string))
    (tar_cmd : list string) (valid_targets_count : nat) : M (list string * nat) :=
  match targets with
  | [] => ret (tar_cmd, valid_targets_count)
  | (name, path) :: rest =>
      if path_exists env path then
        collect_targets rest (tar_cmd ++ [lstrip_slash path])%list (valid_targets_count + 1)
      else
        log ("Not Found: " ++ path) WARN ;;
        collect_targets rest tar_cmd valid_targets_count
  end.

Definition backup_files_stream : M unit :=
  let filename := "files.tar.gz" in
  let remote_dest :=
    RCLONE_REMOTE cfg ++ ":" ++ CURRENT_BACKUP_REMOTE_DIR cfg ++ "/" ++ filename in
  log ("Starting File Stream to: " ++ remote_dest) INFO ;;
  r <- collect_targets (BACKUP_TARGETS cfg) ["tar"; "-czf"; "-"; "-C"; "/"] 0 ;;
  let tar_cmd := fst r in
  let valid_targets_count := snd r in
  if (valid_targets_count =? 0)%nat then
    log "No valid targets found to backup! Aborting file stream." ERROR
  else
    p1_tar <- Popen tar_cmd ;;
    p2_rclone <- Popen ["rclone"; "rcat"; remote_dest; "--stats"; "10s"] ;;
    rclone <- communicate cfg env p2_rclone ;;
    tar <- communicate cfg env p1_tar ;;
    if negb (code rclone =? 0)%Z then
      log ("Rclone File Upload Failed: " ++ err rclone) ERROR ;;
      raise "File stream upload failed"
    else
      (if (1 <? code tar)%Z then
         log ("Tar Fatal Error: " ++ err tar) ERROR ;;
         raise "Tar compression failed"
       else if (code tar =? 1)%Z then
         log "Tar warning (files changed during read), continuing..." WARN
       else ret tt) ;;
      log "File stream completed successfully." INFO.

Definition manage_retention : M unit :=
  log "Checking retention policy..." INFO ;;
  ls_out <- run_rclone_cmd ["lsjson"; RCLONE_REMOTE cfg ++ ":" ++ BASE_REMOTE_PATH cfg;
                            "--dirs-only"] true ;;
  dirs <- json_loads ls_out ;;
  let backup_dirs :=
    sort_by_name (filter (fun d => prefix "backup_" (Name d)) dirs) in
  log ("Found " ++ str_of_nat (length backup_dirs) ++ " backup folders.") INFO ;;
  if (MAX_BACKUPS cfg <? length backup_dirs)%nat then
    let to_delete := firstn (length backup_dirs - MAX_BACKUPS cfg) backup_dirs in
    log ("Retention exceeded. Deleting " ++ str_of_nat (length to_delete)
         ++ " old folders.") INFO ;;
    for_each to_delete (fun item =>
      let folder_name := Name item in
      log ("Purging old backup folder: " ++ folder_name) INFO ;;
      run_rclone_cmd ["purge"; RCLONE_REMOTE cfg ++ ":" ++ BASE_REMOTE_PATH cfg
                               ++ "/" ++ folder_name] true ;;
      ret tt)
  else
    log "Retention limit not reached." INFO.

(** The body of the [try] in [perform_backup]. *)
Definition backup_steps : M unit :=
  run_rclone_cmd ["mkdir"; RCLONE_REMOTE cfg ++ ":" ++ CURRENT_BACKUP_REMOTE_DIR cfg]
                 false ;;
  backup_database_stream ;;
  backup_files_stream ;;
  manage_retention.

(** The [finally] block of [perform_backup]. *)
Definition upload_log_and_clean : M unit :=
  log "Backup finished. Uploading logs and cleaning up." INFO ;;
  subprocess_run ["rclone"; "copy"; LOG_FILE_PATH cfg;
                  RCLONE_REMOTE cfg ++ ":" ++ CURRENT_BACKUP_REMOTE_DIR cfg] ;;
  ex <- temp_dir_exists ;;
  if ex then rmtree_temp else ret tt.

Definition perform_backup : M unit :=
  ensure_temp_dir ;;
  log ("Backup job started. ID: " ++ TIMESTAMP cfg) INFO ;;
  try_finally
    (try_except backup_steps
       (fun e => log ("Backup failed: " ++ e) ERROR))
    upload_log_and_clean.

(** The [__main__] block: an exception that nothing catches ends the
    process with status 1. *)
Definition main (w : World) : Z * World :=
  if negb (euid env =? 0)%Z then
    (1%Z, printed "Error: Must run as root." w)
  else
    match perform_backup w with
    | (Ok _, w') => (0%Z, w')
    | (Raise _, w') => (1%Z, w')
    end.

End Program.

End Fallible.

(** [rclone] is not installed. *)
Definition without_rclone : Faults :=
  {| can_start := fun argv => negb (hd "" argv =? "rclone")%string;
     can_make_temp := true; can_append := fun _ => true; can_remove := true |}.

(** [mysqldump] is not installed. *)
Definition without_mysqldump : Faults :=
  {| can_start := fun argv => negb (hd "" argv =? "mysqldump")%string;
     can_make_temp := true; can_append := fun _ => true; can_remove := true |}.

(** The disk is full once the log holds [n] lines. *)
Definition log_full_at (n : nat) : Faults :=
  {| can_start := fun _ => true; can_make_temp := true;
     can_append := fun l => (length l <? n)%nat; can_remove := true |}.

(** ** Vocabulary of the further properties *)









(** [k] slashes. *)
Fixpoint slashes (k : nat) : string :=
  match k with
  | O => EmptyString
  | S k' => String "/" (slashes k')
  end.

(** How many directories of [r] follow the naming convention. *)
Definition count_backups (r : list RemoteEntry) : nat :=
  length (filter matches_convention (filter IsDir r)).

(** * Properties *)

(** ** Strings *)

Lemma append_assoc (a b c : string) : (a ++ b) ++ c = a ++ (b ++ c).
Proof.
  induction a as [|x a IH]; simpl; [reflexivity | now rewrite IH].
Qed.

Lemma strip_prefix_append (p s : string) : strip_prefix p (p ++ s) = Some s.
Proof.
  induction p as [|x p IH]; simpl; [reflexivity|].
  now rewrite Ascii.eqb_refl.
Qed.

Lemma top_dir_segment (a b : string) :
  no_slash a = true -> top_dir (a ++ String "/" b) = a.
Proof.
  induction a as [|x a IH]; simpl; intros H; [reflexivity|].
  apply andb_true_iff in H as [Hx Ha].
  apply negb_true_iff in Hx. rewrite Hx, IH by assumption. reflexivity.
Qed.

Lemma top_dir_whole (a : string) : no_slash a = true -> top_dir a = a.
Proof.
  induction a as [|x a IH]; simpl; intros H; [reflexivity|].
  apply andb_true_iff in H as [Hx Ha].
  apply negb_true_iff in Hx. rewrite Hx, IH by assumption. reflexivity.
Qed.

(** ** The order of names *)

Lemma ascii_compare_refl (a : ascii) : Ascii.compare a a = Eq.
Proof. unfold Ascii.compare. apply N.compare_refl. Qed.

Lemma ascii_compare_lt_trans (a b c : ascii) :
  Ascii.compare a b = Lt -> Ascii.compare b c = Lt -> Ascii.compare a c = Lt.
Proof.
  unfold Ascii.compare. rewrite !N.compare_lt_iff. apply N.lt_trans.
Qed.

Lemma string_compare_trans_le (a : string) :
  forall b c, String.compare a b <> Gt -> String.compare b c <> Gt ->
              String.compare a c <> Gt.
Proof.
  induction a as [|x a IH]; intros [|y b] [|z c]; simpl;
    try congruence.
  destruct (Ascii.compare x y) eqn:Hxy; try congruence;
    destruct (Ascii.compare y z) eqn:Hyz; try congruence; intros Hab Hbc.
  - apply Ascii.compare_eq_iff in Hxy, Hyz. subst.
    rewrite ascii_compare_refl. now apply IH with b.
  - apply Ascii.compare_eq_iff in Hxy. subst. now rewrite Hyz.
  - apply Ascii.compare_eq_iff in Hyz. subst. now rewrite Hxy.
  - now rewrite (ascii_compare_lt_trans _ _ _ Hxy Hyz).
Qed.

Lemma string_leb_trans (a b c : string) :
  (a <=? b)%string = true -> (b <=? c)%string = true -> (a <=? c)%string = true.
Proof.
  unfold String.leb. intros Hab Hbc.
  assert (H : String.compare a c <> Gt).
  { apply string_compare_trans_le with b.
    - destruct (String.compare a b); congruence.
    - destruct (String.compare b c); congruence. }
  destruct (String.compare a c); congruence.
Qed.

Lemma name_le_trans (a b c : RemoteEntry) : name_le a b -> name_le b c -> name_le a c.
Proof. unfold name_le. apply string_leb_trans. Qed.

Lemma name_le_total (a b : RemoteEntry) : name_le a b \/ name_le b a.
Proof. unfold name_le. apply String.leb_total. Qed.

(** ** The sort *)

Lemma insert_by_name_perm (x : RemoteEntry) (l : list RemoteEntry) :
  Permutation (x :: l) (insert_by_name x l).
Proof.
  induction l as [|y l IH]; simpl; [apply Permutation_refl|].
  destruct (Name x <=? Name y)%string; [apply Permutation_refl|].
  rewrite perm_swap. now apply perm_skip.
Qed.

Lemma sort_by_name_perm (l : list RemoteEntry) : Permutation l (sort_by_name l).
Proof.
  induction l as [|x l IH]; simpl; [constructor|].
  rewrite <- insert_by_name_perm. now apply perm_skip.
Qed.

Lemma sort_by_name_length (l : list RemoteEntry) :
  length (sort_by_name l) = length l.
Proof. symmetry. apply Permutation_length, sort_by_name_perm. Qed.

Lemma insert_by_name_sorted (x : RemoteEntry) (l : list RemoteEntry) :
  StronglySorted name_le l -> StronglySorted name_le (insert_by_name x l).
Proof.
  induction 1 as [|y l Hl IH Hy]; simpl.
  - repeat constructor.
  - destruct (Name x <=? Name y)%string eqn:Hxy.
    + constructor; [now constructor|].
      constructor; [exact Hxy|].
      eapply Forall_impl; [|exact Hy].
      intros z Hz. now apply name_le_trans with y.
    + constructor; [exact IH|].
      apply (Permutation_Forall (insert_by_name_perm x l)).
      constructor; [|exact Hy].
      destruct (name_le_total x y) as [H|H]; [unfold name_le in H; congruence | exact H].
Qed.

Lemma sort_by_name_sorted (l : list RemoteEntry) :
  StronglySorted name_le (sort_by_name l).
Proof.
  induction l as [|x l IH]; simpl; [constructor | now apply insert_by_name_sorted].
Qed.

Lemma sorted_app_le (l1 l2 : list RemoteEntry) :
  StronglySorted name_le (l1 ++ l2) ->
  forall a b, In a l1 -> In b l2 -> name_le a b.
Proof.
  induction l1 as [|x l1 IH]; simpl; intros Hs a b Ha Hb; [contradiction|].
  apply StronglySorted_inv in Hs as [Hs Hx].
  destruct Ha as [<-|Ha].
  - rewrite Forall_forall in Hx. apply Hx, in_or_app. now right.
  - now apply IH.
Qed.

(** ** Worlds *)

Arguments logged : simpl never.
Arguments ran : simpl never.
Arguments finished : simpl never.
Arguments removed_temp : simpl never.
Arguments printed : simpl never.
Arguments log : simpl never.
Arguments run_rclone_cmd : simpl never.

Section Worlds.

Variable cfg : Config.
Variable env : Env.

Lemma spawned_logged e w : spawned (logged e w) = spawned w.
Proof. reflexivity. Qed.
Lemma spawned_ran a w : spawned (ran a w) = (spawned w ++ [a])%list.
Proof. reflexivity. Qed.
Lemma spawned_finished a w : spawned (finished cfg env a w) = spawned w.
Proof. reflexivity. Qed.
Lemma spawned_removed_temp w : spawned (removed_temp w) = spawned w.
Proof. reflexivity. Qed.

Lemma remote_logged e w : remote (logged e w) = remote w.
Proof. reflexivity. Qed.
Lemma remote_ran a w : remote (ran a w) = remote w.
Proof. reflexivity. Qed.
Lemma remote_finished a w :
  remote (finished cfg env a w) =
  if (code (outcome env a) =? 0)%Z then rclone_effect cfg a (remote w) else remote w.
Proof. reflexivity. Qed.
Lemma remote_removed_temp w : remote (removed_temp w) = remote w.
Proof. reflexivity. Qed.

Lemma console_logged e w : console (logged e w) = (console w ++ [entry_text e])%list.
Proof. reflexivity. Qed.
Lemma console_ran a w : console (ran a w) = console w.
Proof. reflexivity. Qed.
Lemma console_finished a w : console (finished cfg env a w) = console w.
Proof. reflexivity. Qed.
Lemma console_removed_temp w : console (removed_temp w) = console w.
Proof. reflexivity. Qed.

Lemma log_of_logged e w : log_of (logged e w) = (log_of w ++ [e])%list.
Proof. reflexivity. Qed.
Lemma log_of_ran a w : log_of (ran a w) = log_of w.
Proof. reflexivity. Qed.
Lemma log_of_finished a w : log_of (finished cfg env a w) = log_of w.
Proof. reflexivity. Qed.

Lemma temp_dir_removed_temp w : temp_dir (removed_temp w) = None.
Proof. reflexivity. Qed.

End Worlds.

Create Rewrite HintDb world.
#[local] Hint Rewrite spawned_logged spawned_ran spawned_finished spawned_removed_temp
  remote_logged remote_ran remote_removed_temp
  console_logged console_ran console_finished console_removed_temp
  log_of_logged log_of_ran log_of_finished temp_dir_removed_temp : world.

(** ** Running the primitives *)

Section Execution.

Variable cfg : Config.
Variable env : Env.

Lemma bind_Ok {A B} (m : M A) (k : A -> M B) w a w1 :
  m w = (Ok a, w1) -> bind m k w = k a w1.
Proof. unfold bind. now intros ->. Qed.

Lemma bind_Raise {A B} (m : M A) (k : A -> M B) w e w1 :
  m w = (Raise e, w1) -> bind m k w = (Raise e, w1).
Proof. unfold bind. now intros ->. Qed.

(** [log] always returns: it makes the directory it writes to. *)
Lemma log_run message lvl w :
  log cfg message lvl w = (Ok tt, logged {| level := lvl; message := message |} w).
Proof.
  unfold log, ensure_temp_dir, temp_dir_exists, makedirs_temp, print, append_log,
    bind, ret, logged, printed, log_of.
  destruct (temp_dir w) eqn:E; simpl; rewrite ?E; reflexivity.
Qed.

Lemma run_rclone_cmd_ok args check w :
  code (outcome env ("rclone" :: args)) = 0%Z ->
  run_rclone_cmd cfg env args check w =
  (Ok (rclone_stdout cfg env ("rclone" :: args) (remote w)),
   finished cfg env ("rclone" :: args) (ran ("rclone" :: args) w)).
Proof.
  intros H. unfold run_rclone_cmd, bind, subprocess_run. simpl.
  rewrite H. reflexivity.
Qed.

Lemma run_rclone_cmd_failed args w :
  code (outcome env ("rclone" :: args)) <> 0%Z ->
  run_rclone_cmd cfg env args true w =
  (Raise ("Rclone failed: " ++ err (outcome env ("rclone" :: args))),
   (rclone_failed cfg env) ("rclone" :: args) w).
Proof.
  intros H. apply Z.eqb_neq in H.
  unfold run_rclone_cmd, bind, subprocess_run. simpl.
  rewrite H. simpl. rewrite !log_run. reflexivity.
Qed.

Lemma run_rclone_cmd_unchecked args w :
  code (outcome env ("rclone" :: args)) <> 0%Z ->
  run_rclone_cmd cfg env args false w =
  (Ok (rclone_stdout cfg env ("rclone" :: args) (remote w)),
   (rclone_failed cfg env) ("rclone" :: args) w).
Proof.
  intros H. apply Z.eqb_neq in H.
  unfold run_rclone_cmd, bind, subprocess_run. simpl.
  rewrite H. simpl. rewrite !log_run. reflexivity.
Qed.

End Execution.

(** ** The two stream jobs *)

Section Streams.

Variable cfg : Config.
Variable env : Env.

Lemma backup_database_stream_run w :
  backup_database_stream cfg env w =
  if negb (code (outcome env (rcat_db_cmd cfg)) =? 0)%Z then
    (Raise ("Rclone DB Upload Failed: " ++ err (outcome env (rcat_db_cmd cfg))),
     (db_streamed cfg env) w)
  else if negb (code (outcome env (dump_cmd cfg)) =? 0)%Z then
    (Raise ("Mysqldump Failed: " ++ err (outcome env (dump_cmd cfg))), (db_streamed cfg env) w)
  else (Ok tt, logged db_done_line (db_streamed cfg env w)).
Proof.
  unfold backup_database_stream.
  erewrite bind_Ok by apply log_run.
  unfold bind, Popen, communicate, raise.
  fold (dump_cmd cfg). fold gzip_cmd. fold (rcat_db_cmd cfg).
  destruct (negb (code (outcome env (rcat_db_cmd cfg)) =? 0)%Z); [reflexivity|].
  destruct (negb (code (outcome env (dump_cmd cfg)) =? 0)%Z); [reflexivity|].
  now rewrite log_run.
Qed.

Lemma collect_targets_run targets :
  forall tar_cmd n w,
    collect_targets cfg env targets tar_cmd n w =
    (Ok ((tar_cmd ++ map (fun t => lstrip_slash (snd t))
                       (filter (fun t => path_exists env (snd t)) targets))%list,
         n + length (filter (fun t => path_exists env (snd t)) targets)),
     warned (filter (fun t => negb (path_exists env (snd t))) targets) w).
Proof.
  induction targets as [|[name path] rest IH]; intros tar_cmd n w; simpl.
  - now rewrite app_nil_r, Nat.add_0_r.
  - destruct (path_exists env path); simpl.
    + rewrite IH, <- app_assoc. simpl. do 3 f_equal. lia.
    + erewrite bind_Ok by apply log_run. now rewrite IH.
Qed.

Lemma backup_files_stream_skip w :
  existing_targets cfg env = [] ->
  backup_files_stream cfg env w =
  (Ok tt, logged no_targets_line
            (warned (missing_targets cfg env) (logged (files_start_line cfg) w))).
Proof.
  intros H. unfold backup_files_stream.
  erewrite bind_Ok by apply log_run.
  erewrite bind_Ok by apply collect_targets_run.
  fold (existing_targets cfg env). rewrite H. simpl.
  now rewrite log_run.
Qed.

Lemma backup_files_stream_run w :
  existing_targets cfg env <> [] ->
  backup_files_stream cfg env w =
  if negb (code (outcome env (rcat_files_cmd cfg)) =? 0)%Z then
    (Raise "File stream upload failed",
     logged {| level := ERROR;
               message := "Rclone File Upload Failed: "
                          ++ err (outcome env (rcat_files_cmd cfg)) |}
       (files_streamed cfg env w))
  else if (1 <? code (outcome env (tar_cmd_of cfg env)))%Z then
    (Raise "Tar compression failed",
     logged {| level := ERROR;
               message := "Tar Fatal Error: " ++ err (outcome env (tar_cmd_of cfg env)) |}
       (files_streamed cfg env w))
  else if (code (outcome env (tar_cmd_of cfg env)) =? 1)%Z then
    (Ok tt, logged files_done_line (logged tar_warning_line (files_streamed cfg env w)))
  else (Ok tt, logged files_done_line (files_streamed cfg env w)).
Proof.
  intros H. unfold backup_files_stream.
  erewrite bind_Ok by apply log_run.
  erewrite bind_Ok by apply collect_targets_run.
  fold (existing_targets cfg env) (missing_targets cfg env).
  cbn [fst snd]. fold (tar_cmd_of cfg env).
  cbn [Nat.add].
  destruct (length (existing_targets cfg env) =? 0)%nat eqn:L.
  { apply Nat.eqb_eq, length_zero_iff_nil in L. contradiction. }
  unfold bind, Popen, communicate, raise, ret.
  fold (rcat_files_cmd cfg).
  destruct (negb (code (outcome env (rcat_files_cmd cfg)) =? 0)%Z).
  { cbv beta. now rewrite log_run. }
  destruct (1 <? code (outcome env (tar_cmd_of cfg env)))%Z.
  { cbv beta. now rewrite log_run. }
  destruct (code (outcome env (tar_cmd_of cfg env)) =? 1)%Z;
    cbv beta; now rewrite !log_run.
Qed.

End Streams.

(** ** Retention *)

Section Retention.

Variable cfg : Config.
Variable env : Env.

Lemma rclone_effect_purge n r : rclone_effect cfg (purge_cmd cfg n) r = remove_dir n r.
Proof.
  unfold purge_cmd, rclone_effect, under_base, base_url.
  replace (RCLONE_REMOTE cfg ++ ":" ++ BASE_REMOTE_PATH cfg ++ "/" ++ n)
    with (((RCLONE_REMOTE cfg ++ ":" ++ BASE_REMOTE_PATH cfg) ++ "/") ++ n)
    by (now rewrite !append_assoc).
  rewrite strip_prefix_append. reflexivity.
Qed.

Lemma rclone_effect_lsjson r : rclone_effect cfg (lsjson_cmd cfg) r = r.
Proof. reflexivity. Qed.

Lemma rclone_stdout_lsjson r :
  code (outcome env (lsjson_cmd cfg)) = 0%Z ->
  rclone_stdout cfg env (lsjson_cmd cfg) r = Listing (filter IsDir r).
Proof.
  intros H. unfold rclone_stdout, lsjson_cmd, base_url.
  fold (lsjson_cmd cfg). rewrite H, !String.eqb_refl. reflexivity.
Qed.

Lemma purge_item_ok d w :
  code (outcome env (purge_cmd cfg (Name d))) = 0%Z ->
  (purge_item cfg env) d w = (Ok tt, (purged cfg env) [d] w).
Proof.
  intros H. unfold purge_item. cbv zeta.
  erewrite bind_Ok by apply log_run.
  erewrite bind_Ok by (apply run_rclone_cmd_ok; exact H).
  reflexivity.
Qed.

Lemma purge_item_failed d w :
  code (outcome env (purge_cmd cfg (Name d))) <> 0%Z ->
  (purge_item cfg env) d w =
  (Raise ("Rclone failed: " ++ err (outcome env (purge_cmd cfg (Name d)))),
   rclone_failed cfg env (purge_cmd cfg (Name d)) (logged (purging_line d) w)).
Proof.
  intros H. unfold purge_item. cbv zeta.
  erewrite bind_Ok by apply log_run.
  erewrite bind_Raise by (apply run_rclone_cmd_failed; exact H).
  reflexivity.
Qed.

Lemma purge_loop_ok D :
  forall w,
    (forall d, In d D -> code (outcome env (purge_cmd cfg (Name d))) = 0%Z) ->
    for_each D (purge_item cfg env) w = (Ok tt, (purged cfg env) D w).
Proof.
  induction D as [|d D IH]; intros w H; simpl; [reflexivity|].
  erewrite bind_Ok by (apply purge_item_ok, H; now left).
  apply IH. intros d' Hd'. apply H. now right.
Qed.

(** The loop stops at the first deletion that fails. *)
Lemma purge_loop_failed P f S :
  forall w,
    (forall p, In p P -> code (outcome env (purge_cmd cfg (Name p))) = 0%Z) ->
    code (outcome env (purge_cmd cfg (Name f))) <> 0%Z ->
    for_each (P ++ f :: S) (purge_item cfg env) w =
    (Raise ("Rclone failed: " ++ err (outcome env (purge_cmd cfg (Name f)))),
     rclone_failed cfg env (purge_cmd cfg (Name f))
       (logged (purging_line f) (purged cfg env P w))).
Proof.
  induction P as [|p P IH]; intros w HP Hf; simpl.
  - erewrite bind_Raise by (apply purge_item_failed; exact Hf). reflexivity.
  - erewrite bind_Ok by (apply purge_item_ok, HP; now left).
    apply IH; [|exact Hf]. intros p' Hp'. apply HP. now right.
Qed.

Lemma purged_cons d D w :
  purged cfg env (d :: D) w
  = purged cfg env D
      (finished cfg env (purge_cmd cfg (Name d))
         (ran (purge_cmd cfg (Name d)) (logged (purging_line d) w))).
Proof. reflexivity. Qed.

Lemma spawned_purged D :
  forall w, spawned (purged cfg env D w)
            = (spawned w ++ map (fun d => purge_cmd cfg (Name d)) D)%list.
Proof.
  induction D as [|d D IH]; intros w.
  - simpl. now rewrite app_nil_r.
  - rewrite purged_cons, IH. autorewrite with world.
    simpl. now rewrite <- app_assoc.
Qed.

Lemma console_purged D :
  forall w, console (purged cfg env D w)
            = (console w ++ map (fun d => entry_text (purging_line d)) D)%list.
Proof.
  induction D as [|d D IH]; intros w.
  - simpl. now rewrite app_nil_r.
  - rewrite purged_cons, IH. autorewrite with world.
    simpl. now rewrite <- app_assoc.
Qed.

Lemma log_of_purged D :
  forall w, log_of (purged cfg env D w) = (log_of w ++ map purging_line D)%list.
Proof.
  induction D as [|d D IH]; intros w.
  - simpl. now rewrite app_nil_r.
  - rewrite purged_cons, IH. autorewrite with world.
    simpl. now rewrite <- app_assoc.
Qed.

Lemma purged_in_cons n names e :
  purged_in (n :: names) e = is_dir_named n e || purged_in names e.
Proof.
  unfold purged_in, is_dir_named. simpl.
  destruct (IsDir e); reflexivity.
Qed.

Lemma remote_purged D :
  forall w,
    (forall d, In d D -> code (outcome env (purge_cmd cfg (Name d))) = 0%Z) ->
    remote (purged cfg env D w)
    = filter (fun e => negb (purged_in (map Name D) e)) (remote w).
Proof.
  induction D as [|d D IH]; intros w H.
  - unfold purged_in. simpl.
    rewrite (filter_ext _ (fun _ => true)).
    + induction (remote w) as [|e r IHr]; simpl; congruence.
    + intros e. now rewrite andb_false_r.
  - rewrite purged_cons, IH by (intros d' Hd'; apply H; now right).
    cbn [map].
    rewrite remote_finished, (H d) by now left.
    rewrite Z.eqb_refl, rclone_effect_purge.
    autorewrite with world. unfold remove_dir.
    induction (remote w) as [|e r IHr]; simpl; [reflexivity|].
    rewrite purged_in_cons.
    destruct (is_dir_named (Name d) e); simpl; [exact IHr|].
    destruct (purged_in (map Name D) e); simpl; now rewrite IHr.
Qed.

Lemma manage_retention_listed w :
  code (outcome env (lsjson_cmd cfg)) = 0%Z ->
  manage_retention cfg env w =
  if (MAX_BACKUPS cfg <? length (backup_dirs_of w))%nat then
    for_each (firstn (length (backup_dirs_of w) - MAX_BACKUPS cfg) (backup_dirs_of w))
      (purge_item cfg env)
      (logged (exceeded_line
                 (length (firstn (length (backup_dirs_of w) - MAX_BACKUPS cfg)
                            (backup_dirs_of w))))
         (listed cfg env w))
  else (Ok tt, logged not_reached_line (listed cfg env w)).
Proof.
  intros H. unfold manage_retention.
  erewrite bind_Ok by apply log_run.
  erewrite bind_Ok by (apply run_rclone_cmd_ok; exact H).
  fold (lsjson_cmd cfg). rewrite rclone_stdout_lsjson by exact H.
  autorewrite with world.
  unfold json_loads. erewrite bind_Ok by reflexivity.
  cbv zeta. fold matches_convention.
  erewrite bind_Ok by apply log_run.
  unfold listed, backup_dirs_of.
  destruct (MAX_BACKUPS cfg <? _)%nat.
  - erewrite bind_Ok by apply log_run. reflexivity.
  - now rewrite log_run.
Qed.

Lemma manage_retention_unlisted w :
  code (outcome env (lsjson_cmd cfg)) <> 0%Z ->
  manage_retention cfg env w =
  (Raise ("Rclone failed: " ++ err (outcome env (lsjson_cmd cfg))),
   rclone_failed cfg env (lsjson_cmd cfg) (logged checking_line w)).
Proof.
  intros H. unfold manage_retention.
  erewrite bind_Ok by apply log_run.
  erewrite bind_Raise by (apply run_rclone_cmd_failed; exact H).
  reflexivity.
Qed.

Lemma remote_listed w : remote (listed cfg env w) = remote w.
Proof.
  unfold listed. autorewrite with world. rewrite remote_finished.
  rewrite rclone_effect_lsjson. autorewrite with world.
  now destruct (code (outcome env (lsjson_cmd cfg)) =? 0)%Z.
Qed.

Lemma spawned_listed w : spawned (listed cfg env w) = (spawned w ++ [lsjson_cmd cfg])%list.
Proof. unfold listed. now autorewrite with world. Qed.

Lemma console_listed w :
  console (listed cfg env w)
  = (console w ++ [entry_text checking_line;
                   entry_text (found_line (length (backup_dirs_of w)))])%list.
Proof. unfold listed. autorewrite with world. now rewrite <- app_assoc. Qed.

End Retention.

(** ** The orchestrator *)

Section Orchestrator.

Variable cfg : Config.
Variable env : Env.

Lemma mkdir_run w :
  exists out,
    run_rclone_cmd cfg env
      ["mkdir"; RCLONE_REMOTE cfg ++ ":" ++ CURRENT_BACKUP_REMOTE_DIR cfg] false w
    = (Ok out, (made_dir cfg env) w).
Proof.
  unfold made_dir. fold (mkdir_cmd cfg).
  destruct (code (outcome env (mkdir_cmd cfg)) =? 0)%Z eqn:E.
  - apply Z.eqb_eq in E. eexists. now apply run_rclone_cmd_ok.
  - apply Z.eqb_neq in E. eexists. now apply run_rclone_cmd_unchecked.
Qed.

Lemma backup_steps_run w :
  backup_steps cfg env w =
  (backup_database_stream cfg env ;;
   backup_files_stream cfg env ;;
   manage_retention cfg env) (made_dir cfg env w).
Proof.
  unfold backup_steps. destruct (mkdir_run w) as [out H].
  now erewrite bind_Ok by exact H.
Qed.

Lemma finally_run w :
  (log cfg "Backup finished. Uploading logs and cleaning up." INFO ;;
   subprocess_run cfg env
     ["rclone"; "copy"; LOG_FILE_PATH cfg;
      RCLONE_REMOTE cfg ++ ":" ++ CURRENT_BACKUP_REMOTE_DIR cfg] ;;
   ex <- temp_dir_exists ;;
   if ex then rmtree_temp else ret tt) w
  = (Ok tt, (cleaned_up cfg env) w).
Proof.
  erewrite bind_Ok by apply log_run. reflexivity.
Qed.

Lemma bind_assoc {A B C} (m : M A) (f : A -> M B) (g : B -> M C) w :
  bind m (fun x => bind (f x) g) w = bind (bind m f) g w.
Proof. unfold bind. now destruct (m w) as [[a|e] w1]. Qed.

Lemma ensure_then_log message lvl w :
  (ensure_temp_dir ;; log cfg message lvl) w
  = (Ok tt, logged {| level := lvl; message := message |} w).
Proof.
  unfold log, ensure_temp_dir, temp_dir_exists, makedirs_temp, print, append_log,
    bind, ret, logged, printed, log_of.
  destruct (temp_dir w) eqn:E; cbn; rewrite ?E; cbn; rewrite ?E; reflexivity.
Qed.

(** [perform_backup] always returns, and what it leaves is the [finally]
    block applied to what the guarded steps left. *)
Lemma perform_backup_run w :
  perform_backup cfg env w =
  match backup_steps cfg env (logged (started_line cfg) w) with
  | (Ok _, w1) => (Ok tt, (cleaned_up cfg env) w1)
  | (Raise e, w1) => (Ok tt, (cleaned_up cfg env) (logged (failed_line e) w1))
  end.
Proof.
  unfold perform_backup. rewrite bind_assoc.
  erewrite bind_Ok by apply ensure_then_log.
  unfold try_finally, try_except. fold (started_line cfg).
  destruct (backup_steps cfg env (logged (started_line cfg) w)) as [[[]|e] w1].
  - now rewrite finally_run.
  - now rewrite log_run, finally_run.
Qed.

Lemma perform_backup_returns w : fst (perform_backup cfg env w) = Ok tt.
Proof.
  rewrite perform_backup_run.
  now destruct (backup_steps cfg env (logged (started_line cfg) w)) as [[[]|e] w1].
Qed.

Lemma spawned_rclone_failed cmd w :
  spawned (rclone_failed cfg env cmd w) = (spawned w ++ [cmd])%list.
Proof. unfold rclone_failed. now autorewrite with world. Qed.

Lemma spawned_made_dir w : spawned (made_dir cfg env w) = (spawned w ++ [mkdir_cmd cfg])%list.
Proof.
  unfold made_dir. destruct (_ =? _)%Z.
  - now autorewrite with world.
  - apply spawned_rclone_failed.
Qed.

Lemma console_made_dir w :
  console (made_dir cfg env w)
  = (console w ++ map entry_text
       (rclone_failure_lines (mkdir_cmd cfg) (outcome env (mkdir_cmd cfg))))%list.
Proof.
  unfold made_dir, rclone_failure_lines. destruct (_ =? _)%Z.
  - autorewrite with world. simpl. now rewrite app_nil_r.
  - unfold rclone_failed. autorewrite with world. simpl. now rewrite <- app_assoc.
Qed.

Lemma spawned_db_streamed w :
  spawned (db_streamed cfg env w)
  = (spawned w ++ [dump_cmd cfg; gzip_cmd; rcat_db_cmd cfg])%list.
Proof.
  unfold db_streamed. autorewrite with world. now rewrite <- !app_assoc.
Qed.

Lemma console_db_streamed w :
  console (db_streamed cfg env w) = (console w ++ [entry_text (db_start_line cfg)])%list.
Proof. unfold db_streamed. now autorewrite with world. Qed.

Lemma spawned_cleaned_up w :
  spawned (cleaned_up cfg env w) = (spawned w ++ [copy_log_cmd cfg])%list.
Proof. unfold cleaned_up. now autorewrite with world. Qed.

Lemma console_cleaned_up w :
  console (cleaned_up cfg env w) = (console w ++ [entry_text closing_line])%list.
Proof. unfold cleaned_up. now autorewrite with world. Qed.

Lemma temp_dir_cleaned_up w : temp_dir (cleaned_up cfg env w) = None.
Proof. reflexivity. Qed.

End Orchestrator.

#[local] Hint Rewrite spawned_made_dir console_made_dir spawned_db_streamed
  console_db_streamed spawned_cleaned_up console_cleaned_up temp_dir_cleaned_up
  spawned_rclone_failed spawned_purged console_purged log_of_purged
  spawned_listed remote_listed console_listed : world.

(** ** Facts about the stream jobs' worlds *)

Section StreamWorlds.

Variable cfg : Config.
Variable env : Env.

Lemma spawned_warned l : forall w, spawned (warned l w) = spawned w.
Proof. induction l as [|t l IH]; intros w; simpl; [reflexivity | now rewrite IH]. Qed.

Lemma remote_warned l : forall w, remote (warned l w) = remote w.
Proof. induction l as [|t l IH]; intros w; simpl; [reflexivity | now rewrite IH]. Qed.

Lemma log_of_warned l :
  forall w, log_of (warned l w) = (log_of w ++ map not_found_line l)%list.
Proof.
  induction l as [|t l IH]; intros w; simpl.
  - now rewrite app_nil_r.
  - rewrite IH. autorewrite with world. now rewrite <- app_assoc.
Qed.

Lemma console_warned l :
  forall w, console (warned l w)
            = (console w ++ map (fun t => entry_text (not_found_line t)) l)%list.
Proof.
  induction l as [|t l IH]; intros w; simpl.
  - now rewrite app_nil_r.
  - rewrite IH. autorewrite with world. now rewrite <- app_assoc.
Qed.

Lemma no_error_among_not_found l :
  filter (fun e => is_error (level e)) (map not_found_line l) = [].
Proof. induction l as [|t l IH]; simpl; [reflexivity | exact IH]. Qed.

Lemma none_exist_existing :
  (forall t, In t (BACKUP_TARGETS cfg) -> path_exists env (snd t) = false) ->
  existing_targets cfg env = [] /\ missing_targets cfg env = BACKUP_TARGETS cfg.
Proof.
  unfold existing_targets, missing_targets.
  induction (BACKUP_TARGETS cfg) as [|t l IH]; intros H; simpl; [now split|].
  rewrite (H t) by now left. simpl.
  destruct IH as [-> ->]; [|now split].
  intros t' Ht'. apply H. now right.
Qed.

Lemma all_exist_missing :
  (forall t, In t (BACKUP_TARGETS cfg) -> path_exists env (snd t) = true) ->
  existing_targets cfg env = BACKUP_TARGETS cfg /\ missing_targets cfg env = [].
Proof.
  unfold existing_targets, missing_targets.
  induction (BACKUP_TARGETS cfg) as [|t l IH]; intros H; simpl; [now split|].
  rewrite (H t) by now left. simpl.
  destruct IH as [-> ->]; [|now split].
  intros t' Ht'. apply H. now right.
Qed.

(** A process that is not [rclone] leaves the remote as it is. *)
Lemma finished_dump (env' : Env) w :
  finished cfg env' (dump_cmd cfg) w = finished cfg env (dump_cmd cfg) w.
Proof.
  unfold finished. f_equal.
  now destruct (_ =? _)%Z, (_ =? _)%Z.
Qed.

Lemma remote_finished_dump w : remote (finished cfg env (dump_cmd cfg) w) = remote w.
Proof. rewrite remote_finished. now destruct (_ =? _)%Z. Qed.

Lemma remote_finished_gzip w : remote (finished cfg env gzip_cmd w) = remote w.
Proof. rewrite remote_finished. now destruct (_ =? _)%Z. Qed.

Lemma remote_finished_tar w : remote (finished cfg env (tar_cmd_of cfg env) w) = remote w.
Proof. rewrite remote_finished. now destruct (_ =? _)%Z. Qed.

End StreamWorlds.

#[local] Hint Rewrite spawned_warned remote_warned log_of_warned console_warned
  remote_finished_dump remote_finished_gzip remote_finished_tar : world.

(** * The claims *)

(** C8. When none of the configured targets exists, the file archive job
    returns normally: it starts no process, leaves the remote as it is, and
    logs its opening line, one warning per target and one error-level line,
    so exactly one of its lines is at the error level. *)
Theorem no_targets_soft_skip :
  forall cfg env w,
    (forall t, In t (BACKUP_TARGETS cfg) -> path_exists env (snd t) = false) ->
    exists w' lines,
      backup_files_stream cfg env w = (Ok tt, w') /\
      spawned w' = spawned w /\
      remote w' = remote w /\
      lines = (files_start_line cfg :: map not_found_line (BACKUP_TARGETS cfg)
               ++ [no_targets_line])%list /\
      log_of w' = (log_of w ++ lines)%list /\
      console w' = (console w ++ map entry_text lines)%list /\
      filter (fun e => is_error (level e)) lines = [no_targets_line].
Proof.
  intros cfg env w H.
  destruct (none_exist_existing cfg env H) as [He Hm].
  eexists. eexists. split; [apply backup_files_stream_skip; exact He|].
  rewrite Hm. autorewrite with world.
  repeat split.
  - now rewrite <- !app_assoc.
  - cbn [map]. rewrite map_app, map_map. now rewrite <- !app_assoc.
  - cbn [filter files_start_line is_error level].
    rewrite filter_app, no_error_among_not_found. reflexivity.
Qed.

(** With no target on disk the eleven warnings and the one error are all
    the job leaves. *)
Lemma no_targets_soft_skip_witness :
  exists w' lines,
    backup_files_stream cfg21 no_targets (empty_world twenty_backups) = (Ok tt, w') /\
    spawned w' = [] /\
    remote w' = twenty_backups /\
    lines = (files_start_line cfg21 :: map not_found_line (BACKUP_TARGETS cfg21)
             ++ [no_targets_line])%list /\
    log_of w' = lines /\
    console w' = map entry_text lines /\
    filter (fun e => is_error (level e)) lines = [no_targets_line].
Proof.
  apply (no_targets_soft_skip cfg21 no_targets (empty_world twenty_backups)).
  intros t _. reflexivity.
Defined.

(** C7. In the file archive job, once at least one target exists and the
    upload stage ends with status 0: status 1 of the archive stage makes the
    job return normally with the warning in the log, and any status of 2 or
    more makes it raise. *)
Theorem archive_exit_code_policy :
  forall cfg env w,
    existing_targets cfg env <> [] ->
    code (outcome env (rcat_files_cmd cfg)) = 0%Z ->
    (code (outcome env (tar_cmd_of cfg env)) = 1%Z ->
     fst (backup_files_stream cfg env w) = Ok tt /\
     log_of (snd (backup_files_stream cfg env w))
     = (log_of (files_streamed cfg env w) ++ [tar_warning_line; files_done_line])%list) /\
    ((2 <= code (outcome env (tar_cmd_of cfg env)))%Z ->
     fst (backup_files_stream cfg env w) = Raise "Tar compression failed").
Proof.
  intros cfg env w He Hup.
  rewrite (backup_files_stream_run cfg env w He), Hup. simpl negb. cbv iota.
  split; intros Ht.
  - rewrite Ht. simpl. split; [reflexivity|].
    autorewrite with world. now rewrite <- app_assoc.
  - destruct (Z.ltb_spec 1 (code (outcome env (tar_cmd_of cfg env)))) as [_|Hle];
      [reflexivity | lia].
Qed.

(** The archive stage ends with status 1, then with status 2. *)
Lemma archive_exit_code_policy_witness :
  let warn := failing (tar_cmd_of cfg21 all_ok) {| code := 1; err := "tar: file changed as we read it" |} in
  let fatal := failing (tar_cmd_of cfg21 all_ok) {| code := 2; err := "tar: Cannot open" |} in
  fst (backup_files_stream cfg21 warn (empty_world [])) = Ok tt /\
  fst (backup_files_stream cfg21 fatal (empty_world [])) = Raise "Tar compression failed".
Proof.
  intros warn fatal. split.
  - apply (archive_exit_code_policy cfg21 warn (empty_world []));
      [discriminate | reflexivity | reflexivity].
  - apply (archive_exit_code_policy cfg21 fatal (empty_world []));
      [discriminate | reflexivity | vm_compute; discriminate].
Defined.

(** C10. In the database dump job the upload stage is looked at first: when
    it ends with a nonzero status the job raises with the upload stage's
    error text alone, and nothing of what the job returns or leaves depends
    on how the dump stage ended. *)
Theorem upload_failure_masks_dump_failure :
  forall cfg env w,
    code (outcome env (rcat_db_cmd cfg)) <> 0%Z ->
    fst (backup_database_stream cfg env w)
    = Raise ("Rclone DB Upload Failed: " ++ err (outcome env (rcat_db_cmd cfg))) /\
    forall env',
      (forall argv, argv <> dump_cmd cfg -> outcome env' argv = outcome env argv) ->
      backup_database_stream cfg env' w = backup_database_stream cfg env w.
Proof.
  intros cfg env w H. apply Z.eqb_neq in H.
  rewrite backup_database_stream_run, H. simpl. split; [reflexivity|].
  intros env' Hsame.
  assert (Hr : outcome env' (rcat_db_cmd cfg) = outcome env (rcat_db_cmd cfg))
    by (apply Hsame; discriminate).
  assert (Hg : outcome env' gzip_cmd = outcome env gzip_cmd)
    by (apply Hsame; discriminate).
  rewrite backup_database_stream_run, Hr, H. simpl.
  unfold db_streamed. rewrite (finished_dump cfg env env').
  f_equal. f_equal. unfold finished. now rewrite Hr, Hg.
Qed.

(** Upload and dump both fail: only the upload's text is raised. *)
Lemma upload_failure_masks_dump_failure_witness :
  let up := {| code := 1; err := "Failed to rcat: quota exceeded" |} in
  let down := {| code := 2; err := "mysqldump: Got error: 1045" |} in
  let env := {| euid := 0; path_exists := fun _ => true;
                outcome := fun argv =>
                  if list_eq_dec string_dec argv (rcat_db_cmd cfg21) then up
                  else if list_eq_dec string_dec argv (dump_cmd cfg21) then down
                  else succeeded |} in
  code (outcome env (dump_cmd cfg21)) = 2%Z /\
  fst (backup_database_stream cfg21 env (empty_world []))
  = Raise "Rclone DB Upload Failed: Failed to rcat: quota exceeded".
Proof.
  intros up down env. split; [reflexivity|].
  apply (upload_failure_masks_dump_failure cfg21 env (empty_world [])).
  vm_compute. discriminate.
Defined.

(** The database job looks at the upload and the dump stage only: with both
    at status 0 it reports success, however the compress stage ended. *)
Lemma database_job_ignores_gzip :
  forall cfg env w,
    code (outcome env (rcat_db_cmd cfg)) = 0%Z ->
    code (outcome env (dump_cmd cfg)) = 0%Z ->
    backup_database_stream cfg env w
    = (Ok tt, logged db_done_line (db_streamed cfg env w)).
Proof.
  intros cfg env w Hr Hd. now rewrite backup_database_stream_run, Hr, Hd.
Qed.

(** A [returncode] below zero (the archive process was killed by a signal)
    is neither above 1 nor equal to 1, and the file archive job reports
    success. *)
Lemma archive_killed_reported_as_success :
  forall cfg env w,
    existing_targets cfg env <> [] ->
    code (outcome env (rcat_files_cmd cfg)) = 0%Z ->
    (code (outcome env (tar_cmd_of cfg env)) < 0)%Z ->
    backup_files_stream cfg env w
    = (Ok tt, logged files_done_line (files_streamed cfg env w)).
Proof.
  intros cfg env w He Hup Hneg.
  rewrite (backup_files_stream_run cfg env w He), Hup. simpl negb. cbv iota.
  destruct (Z.ltb_spec 1 (code (outcome env (tar_cmd_of cfg env)))); [lia|].
  destruct (Z.eqb_spec (code (outcome env (tar_cmd_of cfg env))) 1); [lia|].
  reflexivity.
Qed.

(** C2, at the input where it fails: the compress stage of the database
    pipeline ends with status 1 while dump and upload end with 0, and the
    job returns normally and logs that the stream completed. *)
Theorem gzip_failure_reported_as_success :
  let env := failing gzip_cmd {| code := 1; err := "gzip: stdout: Broken pipe" |} in
  code (outcome env gzip_cmd) = 1%Z /\
  code (outcome env (dump_cmd cfg21)) = 0%Z /\
  code (outcome env (rcat_db_cmd cfg21)) = 0%Z /\
  fst (backup_database_stream cfg21 env (empty_world [])) = Ok tt /\
  log_of (snd (backup_database_stream cfg21 env (empty_world [])))
  = [db_start_line cfg21; db_done_line].
Proof.
  intros env. repeat split.
Qed.



(** ** The selection of the retention manager *)

(** Cutting the sorted list after [n] entries splits [L] into the [n]
    smallest names and the rest. *)
Lemma oldest_split (n : nat) (L : list RemoteEntry) :
  Permutation (firstn n (sort_by_name L) ++ skipn n (sort_by_name L)) L /\
  (forall d r, In d (firstn n (sort_by_name L)) -> In r (skipn n (sort_by_name L)) ->
               name_le d r).
Proof.
  split.
  - rewrite firstn_skipn. symmetry. apply sort_by_name_perm.
  - apply sorted_app_le. rewrite firstn_skipn. apply sort_by_name_sorted.
Qed.

Lemma in_firstn {A} (n : nat) (l : list A) (x : A) : In x (firstn n l) -> In x l.
Proof.
  intros H. rewrite <- (firstn_skipn n l). apply in_or_app. now left.
Qed.

Lemma in_skipn {A} (n : nat) (l : list A) (x : A) : In x (skipn n l) -> In x l.
Proof.
  intros H. rewrite <- (firstn_skipn n l). apply in_or_app. now right.
Qed.

Lemma in_backup_dirs_of w e :
  In e (backup_dirs_of w) ->
  In e (filter IsDir (remote w)) /\ matches_convention e = true.
Proof.
  unfold backup_dirs_of. intros H.
  apply (Permutation_in _ (Permutation_sym (sort_by_name_perm _))) in H.
  now apply filter_In in H.
Qed.

Lemma purged_in_exists names e :
  purged_in names e = true -> IsDir e = true /\ In (Name e) names.
Proof.
  unfold purged_in. intros H. apply andb_true_iff in H as [Hd Hn].
  split; [exact Hd|].
  apply existsb_exists in Hn as (n & Hin & Heq).
  apply String.eqb_eq in Heq. now subst.
Qed.

Lemma NoDup_app_disjoint {A} (l1 l2 : list A) (a : A) :
  NoDup (l1 ++ l2) -> In a l1 -> In a l2 -> False.
Proof.
  induction l1 as [|x l1 IH]; simpl; intros Hn H1 H2; [contradiction|].
  inversion Hn as [|? ? Hx Hn']; subst.
  destruct H1 as [->|H1].
  - apply Hx, in_or_app. now right.
  - now apply IH.
Qed.

(** Filtering a listing keeps its names distinct. *)
Lemma unique_names_filter (keep : RemoteEntry -> bool) (listing : list RemoteEntry) :
  NoDup (map Name listing) -> NoDup (map Name (filter keep listing)).
Proof.
  induction listing as [|e rest IH]; simpl; intros Huniq; [constructor|].
  apply NoDup_cons_iff in Huniq as [Hfresh Hrest].
  destruct (keep e); simpl; [|now apply IH].
  constructor; [|now apply IH].
  intros Hin. apply Hfresh.
  apply in_map_iff in Hin as (e' & Hname & Hin).
  apply filter_In in Hin as [Hin _].
  rewrite <- Hname. now apply in_map.
Qed.

(** C1. Let the listing succeed and show [K] directories whose names follow
    the convention, let [N] be the retention limit, and let each delete call
    succeed.  If [K <= N] no delete call is made and the remote is left as
    it is.  If [K > N] the matching directories split into [D], of [K - N]
    entries, and [R], of [N] entries, every name of [D] being at most every
    name of [R]; the delete calls are those for [D], in order; the remote
    loses the directories named in [D] and nothing else, so every entry
    that does not match stays and, names being unique, so does all of [R]. *)
Theorem retention_deletes_oldest_excess :
  forall cfg env w,
    code (outcome env (lsjson_cmd cfg)) = 0%Z ->
    (forall e, In e (filter IsDir (remote w)) -> matches_convention e = true ->
               code (outcome env (purge_cmd cfg (Name e))) = 0%Z) ->
    let listing := filter IsDir (remote w) in
    let K := length (filter matches_convention listing) in
    let N := MAX_BACKUPS cfg in
    exists w',
      manage_retention cfg env w = (Ok tt, w') /\
      (K <= N ->
       spawned w' = (spawned w ++ [lsjson_cmd cfg])%list /\ remote w' = remote w) /\
      (N < K ->
       exists D R,
         Permutation (D ++ R) (filter matches_convention listing) /\
         length D = K - N /\
         length R = N /\
         (forall d r, In d D -> In r R -> name_le d r) /\
         spawned w'
         = (spawned w ++ lsjson_cmd cfg :: map (fun d => purge_cmd cfg (Name d)) D)%list /\
         remote w' = filter (fun e => negb (purged_in (map Name D) e)) (remote w) /\
         (forall e, In e (remote w) -> matches_convention e = false -> In e (remote w')) /\
         (NoDup (map Name listing) -> forall r, In r R -> In r (remote w'))).
Proof.
  intros cfg env w Hls Hpurge listing K N.
  assert (HK : length (backup_dirs_of w) = K).
  { unfold backup_dirs_of. now rewrite sort_by_name_length. }
  rewrite (manage_retention_listed cfg env w Hls), HK. fold N.
  destruct (Nat.ltb_spec N K) as [Hlt|Hle].
  - set (D := firstn (K - N) (backup_dirs_of w)).
    set (R := skipn (K - N) (backup_dirs_of w)).
    assert (HD : forall d, In d D -> code (outcome env (purge_cmd cfg (Name d))) = 0%Z).
    { intros d Hd. apply in_firstn, in_backup_dirs_of in Hd as [Hd Hm].
      now apply Hpurge. }
    eexists. split; [apply purge_loop_ok; exact HD|].
    split; [lia|]. intros _.
    destruct (oldest_split (K - N) (filter matches_convention listing)) as [Hperm Hord].
    assert (Hrem : remote (purged cfg env D
                             (logged (exceeded_line (length D)) (listed cfg env w)))
                   = filter (fun e => negb (purged_in (map Name D) e)) (remote w)).
    { rewrite remote_purged by exact HD. now autorewrite with world. }
    exists D, R. repeat split.
    + exact Hperm.
    + unfold D. rewrite length_firstn, HK. lia.
    + unfold R. rewrite length_skipn, HK. lia.
    + exact Hord.
    + autorewrite with world. now rewrite <- app_assoc.
    + exact Hrem.
    + intros e He Hm. rewrite Hrem. apply filter_In. split; [exact He|].
      destruct (purged_in (map Name D) e) eqn:Hp; [|reflexivity].
      apply purged_in_exists in Hp as [_ Hn].
      apply in_map_iff in Hn as (d & Hname & Hd).
      apply in_firstn, in_backup_dirs_of in Hd as [_ Hdm].
      unfold matches_convention in *. congruence.
    + intros Hnd r Hr. rewrite Hrem. apply filter_In.
      pose proof (in_skipn _ _ _ Hr) as Hr'.
      apply in_backup_dirs_of in Hr' as [Hr' _].
      split; [apply filter_In in Hr'; tauto|].
      destruct (purged_in (map Name D) r) eqn:Hp; [|reflexivity].
      apply purged_in_exists in Hp as [_ Hn]. exfalso.
      apply (NoDup_app_disjoint (map Name D) (map Name R) (Name r)).
      * rewrite <- map_app.
        apply (Permutation_NoDup (Permutation_map Name (Permutation_sym Hperm))).
        now apply unique_names_filter.
      * exact Hn.
      * now apply in_map.
  - eexists. split; [reflexivity|].
    split; [|lia]. intros _.
    autorewrite with world. split; reflexivity.
Qed.

(** Twenty matching directories beside a directory and a file that do not
    follow the convention: six delete calls, fourteen kept.  Ten matching
    directories: the listing is the only command. *)
Lemma retention_deletes_oldest_excess_witness :
  let w := empty_world (twenty_backups ++ [dir "lost+found";
                                           {| Name := "notes.txt"; IsDir := false |}]) in
  (exists (w' : World) (D R : list RemoteEntry),
      manage_retention cfg21 all_ok w = (Ok tt, w') /\
      length D = 6 /\ length R = 14 /\
      spawned w' = lsjson_cmd cfg21 :: map (fun d => purge_cmd cfg21 (Name d)) D /\
      In (dir "lost+found") (remote w') /\
      In {| Name := "notes.txt"; IsDir := false |} (remote w')) /\
  (exists w' : World,
      manage_retention cfg21 all_ok (empty_world ten_backups) = (Ok tt, w') /\
      spawned w' = [lsjson_cmd cfg21] /\ remote w' = ten_backups).
Proof.
  intros w. split.
  - destruct (retention_deletes_oldest_excess cfg21 all_ok w)
      as (w' & Hrun & _ & Hgt); [reflexivity | reflexivity |].
    destruct Hgt as (D & R & _ & HD & HR & _ & Hsp & _ & Hkeep & _).
    { apply Nat.ltb_lt. reflexivity. }
    exists w', D, R.
    split; [exact Hrun|]. split; [exact HD|]. split; [exact HR|].
    split; [exact Hsp|]. split.
    + apply Hkeep; [|reflexivity].
      apply in_or_app. right. left. reflexivity.
    + apply Hkeep; [|reflexivity].
      apply in_or_app. right. right. left. reflexivity.
  - destruct (retention_deletes_oldest_excess cfg21 all_ok (empty_world ten_backups))
      as (w' & Hrun & Hle & _); [reflexivity | reflexivity |].
    exists w'. split; [exact Hrun|].
    apply Hle. apply Nat.leb_le. reflexivity.
Defined.

(** C3 as stated fails.  Sixteen matching directories with a limit of
    fourteen select the two oldest; the delete call for the first ends with
    status 1, the retention manager raises, and no delete call is made for
    the second. *)
Lemma retention_best_effort_counterexample :
  let bad := purge_cmd cfg21 "backup_20260101_030000" in
  let env := failing bad {| code := 1; err := "directory not found" |} in
  let w := empty_world sixteen_backups in
  firstn (length (backup_dirs_of w) - MAX_BACKUPS cfg21) (backup_dirs_of w)
  = [dir "backup_20260101_030000"; dir "backup_20260102_030000"] /\
  code (outcome env bad) = 1%Z /\
  fst (manage_retention cfg21 env w) = Raise "Rclone failed: directory not found" /\
  spawned (snd (manage_retention cfg21 env w)) = [lsjson_cmd cfg21; bad] /\
  ~ In (purge_cmd cfg21 "backup_20260102_030000")
       (spawned (snd (manage_retention cfg21 env w))).
Proof.
  intros bad env w.
  assert (Hs : spawned (snd (manage_retention cfg21 env w)) = [lsjson_cmd cfg21; bad])
    by (vm_compute; reflexivity).
  split; [vm_compute; reflexivity|].
  split; [vm_compute; reflexivity|].
  split; [vm_compute; reflexivity|].
  split; [exact Hs|].
  rewrite Hs. intros [H|[H|[]]]; discriminate H.
Qed.

(** C3, amended.  The deletions stop at the first one that fails: when the
    listing succeeded and the selected entries are [P ++ f :: S], the delete
    calls for [P] succeeding and the one for [f] failing, the retention
    manager raises with the error text of that call, after logging it; the
    delete calls made are those for [P] and for [f], in order, and none is
    made for [S]. *)
Theorem retention_stops_at_first_failed_delete :
  forall cfg env w P f S,
    code (outcome env (lsjson_cmd cfg)) = 0%Z ->
    firstn (length (backup_dirs_of w) - MAX_BACKUPS cfg) (backup_dirs_of w)
    = (P ++ f :: S)%list ->
    (forall p, In p P -> code (outcome env (purge_cmd cfg (Name p))) = 0%Z) ->
    code (outcome env (purge_cmd cfg (Name f))) <> 0%Z ->
    exists w' lines,
      manage_retention cfg env w
      = (Raise ("Rclone failed: " ++ err (outcome env (purge_cmd cfg (Name f)))), w') /\
      spawned w'
      = (spawned w ++ lsjson_cmd cfg
                      :: map (fun d => purge_cmd cfg (Name d)) (P ++ [f]))%list /\
      log_of w'
      = (lines ++ purging_line f
               :: rclone_failure_lines (purge_cmd cfg (Name f))
                    (outcome env (purge_cmd cfg (Name f))))%list.
Proof.
  intros cfg env w P f S Hls Hsel HP Hf.
  rewrite (manage_retention_listed cfg env w Hls).
  destruct (Nat.ltb_spec (MAX_BACKUPS cfg) (length (backup_dirs_of w))) as [Hlt|Hle].
  - rewrite Hsel. eexists.
    exists (log_of (purged cfg env P
                      (logged (exceeded_line (length (P ++ f :: S))) (listed cfg env w)))).
    split; [apply purge_loop_failed; assumption|].
    unfold rclone_failed, rclone_failure_lines.
    apply Z.eqb_neq in Hf. rewrite Hf. split.
    + autorewrite with world. rewrite map_app. cbn [map].
      now rewrite <- !app_assoc.
    + rewrite !log_of_logged, log_of_finished, log_of_ran, log_of_logged.
      now rewrite <- !app_assoc.
  - replace (length (backup_dirs_of w) - MAX_BACKUPS cfg) with 0 in Hsel by lia.
    simpl in Hsel. now destruct P.
Qed.

(** The run of the counterexample: [P] is empty, [f] the oldest backup. *)
Lemma retention_stops_at_first_failed_delete_witness :
  let bad := purge_cmd cfg21 "backup_20260101_030000" in
  let env := failing bad {| code := 1; err := "directory not found" |} in
  exists w' lines,
    manage_retention cfg21 env (empty_world sixteen_backups)
    = (Raise "Rclone failed: directory not found", w') /\
    spawned w' = [lsjson_cmd cfg21; bad] /\
    log_of w'
    = (lines ++ purging_line (dir "backup_20260101_030000")
             :: rclone_failure_lines bad (outcome env bad))%list.
Proof.
  intros bad env.
  apply (retention_stops_at_first_failed_delete cfg21 env (empty_world sixteen_backups)
           [] (dir "backup_20260101_030000") [dir "backup_20260102_030000"]).
  - vm_compute. reflexivity.
  - vm_compute. reflexivity.
  - intros p [].
  - vm_compute. discriminate.
Defined.

(** ** The run directory on the remote *)

Section RunDirectory.

Variable cfg : Config.
Variable env : Env.

Lemma append_empty (s : string) : s ++ "" = s.
Proof. induction s as [|c s IH]; simpl; [reflexivity | now rewrite IH]. Qed.

Lemma under_base_run_dir (rest : string) :
  under_base cfg (RCLONE_REMOTE cfg ++ ":" ++ CURRENT_BACKUP_REMOTE_DIR cfg ++ rest)
  = Some (("backup_" ++ TIMESTAMP cfg) ++ rest).
Proof.
  unfold under_base, base_url, CURRENT_BACKUP_REMOTE_DIR.
  replace (RCLONE_REMOTE cfg ++ ":" ++ (BASE_REMOTE_PATH cfg ++ "/backup_" ++ TIMESTAMP cfg)
           ++ rest)
    with (((RCLONE_REMOTE cfg ++ ":" ++ BASE_REMOTE_PATH cfg) ++ "/")
          ++ (("backup_" ++ TIMESTAMP cfg) ++ rest)).
  - apply strip_prefix_append.
  - rewrite !append_assoc. reflexivity.
Qed.

Lemma touch_run_dir_file (file : string) r :
  no_slash (TIMESTAMP cfg) = true ->
  touch cfg (RCLONE_REMOTE cfg ++ ":" ++ CURRENT_BACKUP_REMOTE_DIR cfg ++ "/" ++ file) r
  = ensure_dir ("backup_" ++ TIMESTAMP cfg) r.
Proof.
  intros H. unfold touch. rewrite under_base_run_dir.
  change (("backup_" ++ TIMESTAMP cfg) ++ "/" ++ file)
    with (("backup_" ++ TIMESTAMP cfg) ++ String "/" file).
  rewrite top_dir_segment; [reflexivity | exact H].
Qed.

Lemma touch_run_dir r :
  no_slash (TIMESTAMP cfg) = true ->
  touch cfg (RCLONE_REMOTE cfg ++ ":" ++ CURRENT_BACKUP_REMOTE_DIR cfg) r
  = ensure_dir ("backup_" ++ TIMESTAMP cfg) r.
Proof.
  intros H. unfold touch.
  rewrite <- (append_empty (CURRENT_BACKUP_REMOTE_DIR cfg)) at 1.
  rewrite under_base_run_dir, append_empty.
  rewrite top_dir_whole; [reflexivity | exact H].
Qed.

Lemma ensure_dir_new n r :
  existsb (is_dir_named n) r = false -> ensure_dir n r = (r ++ [dir n])%list.
Proof. unfold ensure_dir. now intros ->. Qed.

Lemma ensure_dir_again n r : ensure_dir n (ensure_dir n r) = ensure_dir n r.
Proof.
  unfold ensure_dir at 2.
  destruct (existsb (is_dir_named n) r) eqn:E.
  - unfold ensure_dir. now rewrite E.
  - unfold ensure_dir. rewrite existsb_app. simpl.
    rewrite E. unfold is_dir_named. simpl. now rewrite String.eqb_refl.
Qed.

(** Once the database archive is uploaded the run directory exists,
    whether or not [mkdir] succeeded. *)
Lemma remote_after_database_upload w :
  no_slash (TIMESTAMP cfg) = true ->
  code (outcome env (rcat_db_cmd cfg)) = 0%Z ->
  remote (db_streamed cfg env (made_dir cfg env w))
  = ensure_dir ("backup_" ++ TIMESTAMP cfg) (remote w).
Proof.
  intros Hts Hup. unfold db_streamed. autorewrite with world.
  rewrite remote_finished, Hup, Z.eqb_refl.
  unfold rcat_db_cmd at 1. cbn [rclone_effect String.eqb Ascii.eqb Bool.eqb negb].
  rewrite touch_run_dir_file by exact Hts. autorewrite with world.
  unfold made_dir.
  destruct (code (outcome env (mkdir_cmd cfg)) =? 0)%Z eqn:E.
  - rewrite remote_finished, E.
    unfold mkdir_cmd at 1. cbn [rclone_effect String.eqb Ascii.eqb Bool.eqb negb].
    rewrite touch_run_dir by exact Hts. autorewrite with world.
    apply ensure_dir_again.
  - unfold rclone_failed. autorewrite with world.
    rewrite remote_finished, E. now autorewrite with world.
Qed.

Lemma remote_after_files_upload w :
  no_slash (TIMESTAMP cfg) = true ->
  code (outcome env (rcat_files_cmd cfg)) = 0%Z ->
  remote (files_streamed cfg env w)
  = ensure_dir ("backup_" ++ TIMESTAMP cfg) (remote w).
Proof.
  intros Hts Hup. unfold files_streamed. autorewrite with world.
  rewrite remote_finished, Hup, Z.eqb_refl.
  unfold rcat_files_cmd at 1. cbn [rclone_effect String.eqb Ascii.eqb Bool.eqb negb].
  rewrite touch_run_dir_file by exact Hts. now autorewrite with world.
Qed.

Lemma spawned_files_streamed w :
  spawned (files_streamed cfg env w)
  = (spawned w ++ [tar_cmd_of cfg env; rcat_files_cmd cfg])%list.
Proof.
  unfold files_streamed. autorewrite with world. now rewrite <- !app_assoc.
Qed.

Lemma console_files_streamed w :
  console (files_streamed cfg env w)
  = (console w ++ entry_text (files_start_line cfg)
       :: map (fun t => entry_text (not_found_line t)) (missing_targets cfg env))%list.
Proof.
  unfold files_streamed. autorewrite with world. now rewrite <- !app_assoc.
Qed.

End RunDirectory.

#[local] Hint Rewrite spawned_files_streamed console_files_streamed : world.

(** ** Scenario A *)

Lemma matches_run_dir (cfg : Config) : matches_convention (run_dir cfg) = true.
Proof.
  unfold matches_convention, run_dir. simpl. now destruct (TIMESTAMP cfg).
Qed.

(** C5 as stated fails.  Eleven targets, all on disk; every command ends
    with status 0; the limit is 14 and twenty matching directories exist
    before the run.  The run creates its own directory before it lists the
    remote, the listing shows 21 and seven delete calls are made. *)
Lemma scenario_A_counterexample :
  let w := empty_world twenty_backups in
  let w' := snd (perform_backup cfg21 all_ok w) in
  length (BACKUP_TARGETS cfg21) = 11 /\
  MAX_BACKUPS cfg21 = 14 /\
  length (filter matches_convention (filter IsDir (remote w))) = 20 /\
  fst (perform_backup cfg21 all_ok w) = Ok tt /\
  filter is_purge (spawned w')
  = map (purge_cmd cfg21)
      ["backup_20260101_030000"; "backup_20260102_030000"; "backup_20260103_030000";
       "backup_20260104_030000"; "backup_20260105_030000"; "backup_20260106_030000";
       "backup_20260107_030000"] /\
  length (filter is_purge (spawned w')) <> 6.
Proof.
  intros w w'.
  assert (H : filter is_purge (spawned w')
              = map (purge_cmd cfg21)
                  ["backup_20260101_030000"; "backup_20260102_030000";
                   "backup_20260103_030000"; "backup_20260104_030000";
                   "backup_20260105_030000"; "backup_20260106_030000";
                   "backup_20260107_030000"])
    by (vm_compute; reflexivity).
  split; [reflexivity|].
  split; [reflexivity|].
  split; [vm_compute; reflexivity|].
  split; [vm_compute; reflexivity|].
  split; [exact H|].
  rewrite H. simpl. discriminate.
Qed.

(** C5, amended.  In scenario A -- eleven targets, all on disk; the dump
    stage, the archive stage and both uploads at status 0; listing and
    delete calls succeeding; a limit of 14; twenty matching directories
    before the run, none of them the run's own -- the listing shows 21
    matching directories, the twenty and the run's own.  They split into [D], of
    seven, and [R], of fourteen, every name of [D] at most every name of
    [R]; the delete calls are those for [D]; the guarded steps raise
    nothing and no failure line is printed. *)
Theorem scenario_A_purges_seven :
  forall cfg env w,
    no_slash (TIMESTAMP cfg) = true ->
    length (BACKUP_TARGETS cfg) = 11 ->
    MAX_BACKUPS cfg = 14 ->
    (forall t, In t (BACKUP_TARGETS cfg) -> path_exists env (snd t) = true) ->
    code (outcome env (dump_cmd cfg)) = 0%Z ->
    code (outcome env (rcat_db_cmd cfg)) = 0%Z ->
    code (outcome env (tar_cmd_of cfg env)) = 0%Z ->
    code (outcome env (rcat_files_cmd cfg)) = 0%Z ->
    code (outcome env (lsjson_cmd cfg)) = 0%Z ->
    (forall n, code (outcome env (purge_cmd cfg n)) = 0%Z) ->
    length (filter matches_convention (filter IsDir (remote w))) = 20 ->
    existsb (is_dir_named ("backup_" ++ TIMESTAMP cfg)) (remote w) = false ->
    exists (D R : list RemoteEntry) (w' : World),
      perform_backup cfg env w = (Ok tt, w') /\
      fst (backup_steps cfg env (logged (started_line cfg) w)) = Ok tt /\
      Permutation (D ++ R)
        (filter matches_convention (filter IsDir (remote w)) ++ [run_dir cfg]) /\
      length D = 7 /\
      length R = 14 /\
      (forall d r, In d D -> In r R -> name_le d r) /\
      spawned w'
      = (spawned w
         ++ [mkdir_cmd cfg; dump_cmd cfg; gzip_cmd; rcat_db_cmd cfg;
             tar_cmd_of cfg env; rcat_files_cmd cfg; lsjson_cmd cfg]
         ++ map (fun d => purge_cmd cfg (Name d)) D
         ++ [copy_log_cmd cfg])%list /\
      console w'
      = (console w ++ map entry_text
           ([started_line cfg]
            ++ rclone_failure_lines (mkdir_cmd cfg) (outcome env (mkdir_cmd cfg))
            ++ [db_start_line cfg; db_done_line; files_start_line cfg; files_done_line;
                checking_line; found_line 21; exceeded_line 7]
            ++ map purging_line D
            ++ [closing_line]))%list.
Proof.
  intros cfg env w Hts Htargets Hmax Hexist Hdump Hdb Htar Hfiles Hls Hpurge H20 Hnew.
  destruct (all_exist_missing cfg env Hexist) as [He Hm].
  assert (Hne : existing_targets cfg env <> []).
  { rewrite He. intros E. rewrite E in Htargets. discriminate Htargets. }
  set (w1 := logged db_done_line
               (db_streamed cfg env (made_dir cfg env (logged (started_line cfg) w)))).
  set (w2 := logged files_done_line (files_streamed cfg env w1)).
  assert (Hr2 : remote w2 = (remote w ++ [run_dir cfg])%list).
  { unfold w2. autorewrite with world.
    rewrite remote_after_files_upload by assumption.
    unfold w1. autorewrite with world.
    rewrite remote_after_database_upload by assumption.
    autorewrite with world. rewrite ensure_dir_again.
    now apply ensure_dir_new. }
  assert (Hdirs : backup_dirs_of w2
                  = sort_by_name (filter matches_convention (filter IsDir (remote w))
                                  ++ [run_dir cfg])).
  { unfold backup_dirs_of. rewrite Hr2, !filter_app.
    cbn [filter run_dir IsDir]. now rewrite matches_run_dir. }
  assert (Hlen : length (backup_dirs_of w2) = 21).
  { rewrite Hdirs, sort_by_name_length, length_app, H20. reflexivity. }
  set (D := firstn 7 (backup_dirs_of w2)).
  set (R := skipn 7 (backup_dirs_of w2)).
  assert (Hsteps : backup_steps cfg env (logged (started_line cfg) w)
                   = (Ok tt, purged cfg env D
                               (logged (exceeded_line 7) (listed cfg env w2)))).
  { rewrite backup_steps_run.
    erewrite bind_Ok by (apply database_job_ignores_gzip; assumption).
    fold w1.
    erewrite bind_Ok
      by (rewrite backup_files_stream_run, Hfiles, Htar by exact Hne; reflexivity).
    fold w2.
    rewrite manage_retention_listed, Hlen, Hmax by exact Hls.
    cbn [Nat.ltb Nat.leb Nat.sub]. fold D.
    replace (length D) with 7 by (unfold D; rewrite length_firstn, Hlen; reflexivity).
    apply purge_loop_ok. intros d _. apply Hpurge. }
  exists D, R. eexists.
  split; [rewrite perform_backup_run, Hsteps; reflexivity|].
  split; [now rewrite Hsteps|].
  destruct (oldest_split 7 (filter matches_convention (filter IsDir (remote w))
                            ++ [run_dir cfg])) as [Hperm Hord].
  rewrite <- Hdirs in Hperm, Hord.
  split; [exact Hperm|].
  split; [unfold D; rewrite length_firstn, Hlen; reflexivity|].
  split; [unfold R; rewrite length_skipn, Hlen; reflexivity|].
  split; [exact Hord|].
  autorewrite with world. rewrite Hlen.
  unfold w2, w1. autorewrite with world. rewrite Hm.
  split.
  - rewrite <- !app_assoc. reflexivity.
  - rewrite !map_app, map_map. cbn [map]. rewrite <- !app_assoc. reflexivity.
Qed.

(** The run of the counterexample. *)
Lemma scenario_A_purges_seven_witness :
  exists (D R : list RemoteEntry) (w' : World),
    perform_backup cfg21 all_ok (empty_world twenty_backups) = (Ok tt, w') /\
    length D = 7 /\ length R = 14 /\
    filter is_purge (spawned w') = map (fun d => purge_cmd cfg21 (Name d)) D.
Proof.
  destruct (scenario_A_purges_seven cfg21 all_ok (empty_world twenty_backups))
    as (D & R & w' & Hrun & _ & _ & HD & HR & _ & Hsp & _);
    try (intros; reflexivity).
  exists D, R, w'.
  split; [exact Hrun|]. split; [exact HD|]. split; [exact HR|].
  rewrite Hsp. cbn [app spawned empty_world].
  unfold mkdir_cmd, dump_cmd, gzip_cmd, rcat_db_cmd, tar_cmd_of, rcat_files_cmd,
    lsjson_cmd.
  cbn [filter is_purge String.eqb Ascii.eqb Bool.eqb andb app].
  rewrite filter_app. cbn [filter copy_log_cmd is_purge String.eqb Ascii.eqb Bool.eqb andb].
  rewrite app_nil_r.
  clear. induction D as [|d D IH]; [reflexivity|].
  cbn [map filter purge_cmd is_purge String.eqb Ascii.eqb Bool.eqb andb].
  now rewrite IH.
Defined.

(** * Further properties of the script *)

(** ** [run_rclone_cmd] *)

(** X1. [run_rclone_cmd] starts exactly one process, [rclone] followed by
    its arguments.  When that ends with status 0 nothing is logged and the
    captured output is returned.  When it ends with another status two
    error lines are logged, naming the command and its error text; the call
    then raises with that error text if [check] is set, and returns the
    output all the same if it is not. *)
Theorem run_rclone_cmd_contract :
  forall cfg env args check w,
    spawned (snd (run_rclone_cmd cfg env args check w))
    = (spawned w ++ ["rclone" :: args])%list /\
    log_of (snd (run_rclone_cmd cfg env args check w))
    = (log_of w ++ rclone_failure_lines ("rclone" :: args)
                     (outcome env ("rclone" :: args)))%list /\
    fst (run_rclone_cmd cfg env args check w)
    = if negb (code (outcome env ("rclone" :: args)) =? 0)%Z && check
      then Raise ("Rclone failed: " ++ err (outcome env ("rclone" :: args)))
      else Ok (rclone_stdout cfg env ("rclone" :: args) (remote w)).
Proof.
  intros cfg env args check w. unfold rclone_failure_lines.
  destruct (code (outcome env ("rclone" :: args)) =? 0)%Z eqn:E.
  - apply Z.eqb_eq in E. rewrite run_rclone_cmd_ok by exact E.
    simpl. autorewrite with world. now rewrite app_nil_r.
  - apply Z.eqb_neq in E. destruct check.
    + rewrite run_rclone_cmd_failed by exact E. simpl.
      unfold rclone_failed. autorewrite with world.
      now rewrite <- app_assoc.
    + rewrite run_rclone_cmd_unchecked by exact E. simpl.
      unfold rclone_failed. autorewrite with world.
      now rewrite <- app_assoc.
Qed.

(** ** The database dump job *)

(** X2. The database dump job starts its three processes -- dump,
    compress, upload, in this order -- however they end, and returns
    normally exactly when both the upload and the dump stage end with
    status 0. *)
Theorem database_job_succeeds_iff :
  forall cfg env w,
    spawned (snd (backup_database_stream cfg env w))
    = (spawned w ++ [dump_cmd cfg; gzip_cmd; rcat_db_cmd cfg])%list /\
    (fst (backup_database_stream cfg env w) = Ok tt <->
     code (outcome env (rcat_db_cmd cfg)) = 0%Z /\
     code (outcome env (dump_cmd cfg)) = 0%Z).
Proof.
  intros cfg env w. rewrite backup_database_stream_run.
  destruct (Z.eqb_spec (code (outcome env (rcat_db_cmd cfg))) 0) as [Hr|Hr];
    destruct (Z.eqb_spec (code (outcome env (dump_cmd cfg))) 0) as [Hd|Hd];
    cbn [negb fst snd]; autorewrite with world; (split; [reflexivity|]);
    split; try discriminate; tauto.
Qed.

(** X3. When the upload stage of the database job ends with status 0 and
    the dump stage does not, the job raises with the dump stage's error
    text, and its opening line is the only line it logs. *)
Theorem dump_failure_is_reported :
  forall cfg env w,
    code (outcome env (rcat_db_cmd cfg)) = 0%Z ->
    code (outcome env (dump_cmd cfg)) <> 0%Z ->
    fst (backup_database_stream cfg env w)
    = Raise ("Mysqldump Failed: " ++ err (outcome env (dump_cmd cfg))) /\
    log_of (snd (backup_database_stream cfg env w))
    = (log_of w ++ [db_start_line cfg])%list.
Proof.
  intros cfg env w Hr Hd. apply Z.eqb_neq in Hd.
  rewrite backup_database_stream_run, Hr, Hd. simpl.
  split; [reflexivity|]. unfold db_streamed. now autorewrite with world.
Qed.

(** The dump stage ends with status 2. *)
Lemma dump_failure_is_reported_witness :
  let env := failing (dump_cmd cfg21) {| code := 2; err := "mysqldump: Got error: 1045" |} in
  fst (backup_database_stream cfg21 env (empty_world []))
  = Raise "Mysqldump Failed: mysqldump: Got error: 1045" /\
  log_of (snd (backup_database_stream cfg21 env (empty_world [])))
  = [db_start_line cfg21].
Proof.
  intros env.
  apply (dump_failure_is_reported cfg21 env (empty_world []));
    [reflexivity | vm_compute; discriminate].
Defined.

(** ** The file archive job *)

(** X4. The file archive job returns normally exactly when no target
    exists, or the upload stage ends with status 0 and the archive stage
    with a status of at most 1 -- which includes the negative statuses of a
    process killed by a signal. *)
Theorem files_job_succeeds_iff :
  forall cfg env w,
    fst (backup_files_stream cfg env w) = Ok tt <->
    existing_targets cfg env = [] \/
    (code (outcome env (rcat_files_cmd cfg)) = 0%Z /\
     (code (outcome env (tar_cmd_of cfg env)) <= 1)%Z).
Proof.
  intros cfg env w.
  destruct (existing_targets cfg env) as [|t l] eqn:He.
  - rewrite backup_files_stream_skip by exact He. simpl. tauto.
  - rewrite backup_files_stream_run by (rewrite He; discriminate).
    destruct (Z.eqb_spec (code (outcome env (rcat_files_cmd cfg))) 0) as [Hr|Hr];
      simpl.
    + destruct (Z.ltb_spec 1 (code (outcome env (tar_cmd_of cfg env)))) as [Ht|Ht];
        simpl.
      * split; [discriminate|]. intros [H|[_ H]]; [discriminate | lia].
      * destruct (code (outcome env (tar_cmd_of cfg env)) =? 1)%Z; simpl;
          (split; [intros _; right; split; assumption | reflexivity]).
    + split; [discriminate|]. intros [H|[H _]]; [discriminate | contradiction].
Qed.

(** X5. When some target exists and the upload stage of the file archive
    job ends with a nonzero status, the job logs the upload stage's error
    text at the error level and raises, however the archive stage ended. *)
Theorem files_upload_failure_is_fatal :
  forall cfg env w,
    existing_targets cfg env <> [] ->
    code (outcome env (rcat_files_cmd cfg)) <> 0%Z ->
    fst (backup_files_stream cfg env w) = Raise "File stream upload failed" /\
    log_of (snd (backup_files_stream cfg env w))
    = (log_of (files_streamed cfg env w)
       ++ [ {| level := ERROR;
               message := "Rclone File Upload Failed: "
                          ++ err (outcome env (rcat_files_cmd cfg)) |} ])%list.
Proof.
  intros cfg env w He Hr. apply Z.eqb_neq in Hr.
  rewrite backup_files_stream_run, Hr by exact He. simpl.
  split; [reflexivity|]. now autorewrite with world.
Qed.

(** The upload ends with status 1 while the archive stage succeeded. *)
Lemma files_upload_failure_is_fatal_witness :
  let env := failing (rcat_files_cmd cfg21) {| code := 1; err := "quota exceeded" |} in
  fst (backup_files_stream cfg21 env (empty_world [])) = Raise "File stream upload failed".
Proof.
  intros env.
  apply (files_upload_failure_is_fatal cfg21 env (empty_world []));
    [discriminate | vm_compute; discriminate].
Defined.

(** X6. When some target exists the file archive job starts exactly two
    processes, however they end: first [tar -czf - -C /] followed by the
    paths of the targets that exist, in the order of the configuration and
    without their leading slashes, then the upload.  Before that it logs
    its opening line and one warning for each target that is missing. *)
Theorem archive_command_lists_existing_targets :
  forall cfg env w,
    existing_targets cfg env <> [] ->
    spawned (snd (backup_files_stream cfg env w))
    = (spawned w
       ++ [ (["tar"; "-czf"; "-"; "-C"; "/"]
             ++ map (fun t => lstrip_slash (snd t))
                  (filter (fun t => path_exists env (snd t)) (BACKUP_TARGETS cfg)))%list;
            rcat_files_cmd cfg ])%list /\
    exists rest,
      log_of (snd (backup_files_stream cfg env w))
      = (log_of w
         ++ files_start_line cfg
            :: map not_found_line
                 (filter (fun t => negb (path_exists env (snd t))) (BACKUP_TARGETS cfg))
         ++ rest)%list.
Proof.
  intros cfg env w He.
  rewrite backup_files_stream_run by exact He.
  fold (existing_targets cfg env) (missing_targets cfg env) (tar_cmd_of cfg env).
  destruct (negb (code (outcome env (rcat_files_cmd cfg)) =? 0)%Z);
    [|destruct (1 <? code (outcome env (tar_cmd_of cfg env)))%Z;
      [|destruct (code (outcome env (tar_cmd_of cfg env)) =? 1)%Z]];
    cbn [fst snd]; autorewrite with world; unfold files_streamed;
    autorewrite with world; rewrite <- !app_assoc;
    (split; [reflexivity|]); eexists; cbn [app]; reflexivity.
Qed.

(** Every target exists: the eleven paths follow the fixed options. *)
Lemma archive_command_lists_existing_targets_witness :
  spawned (snd (backup_files_stream cfg21 all_ok (empty_world [])))
  = [ ["tar"; "-czf"; "-"; "-C"; "/"; "etc/apache2"; "etc/letsencrypt";
       "var/lib/docker/volumes/wg-easy_etc_wireguard/_data/"; "root/wg-easy";
       "var/www/html";
       "home/amp/.ampdata/instances/Terraria_Vanilla_02_202601/Terraria";
       "home/amp/.ampdata/instances/Cobblemon_1_21_101/Minecraft";
       "etc/ufw"; "etc/default/ufw"; "root/drive-backup.py"; "etc/php/"];
      rcat_files_cmd cfg21 ].
Proof.
  apply (archive_command_lists_existing_targets cfg21 all_ok (empty_world [])).
  discriminate.
Defined.

Lemma lstrip_slash_spec (s : string) :
  exists k, s = slashes k ++ lstrip_slash s /\ prefix "/" (lstrip_slash s) = false.
Proof.
  induction s as [|c s IH].
  - exists 0. split; reflexivity.
  - simpl. destruct (Ascii.eqb_spec c "/"%char) as [->|Hc].
    + destruct IH as (k & Hk & Hp). exists (S k). split; [|exact Hp].
      simpl. now rewrite <- Hk.
    + exists 0. split; [reflexivity|]. cbn [prefix].
      destruct (ascii_dec "/" c) as [E|_]; [now subst | reflexivity].
Qed.

(** Each path argument of [tar_cmd_of] is the path of a target that exists
    without its leading slashes. *)
Lemma tar_cmd_paths_relative :
  forall cfg env a,
    In a (skipn 5 (tar_cmd_of cfg env)) ->
    exists t k,
      In t (BACKUP_TARGETS cfg) /\
      path_exists env (snd t) = true /\
      snd t = slashes k ++ a /\
      prefix "/" a = false.
Proof.
  intros cfg env a Ha. unfold tar_cmd_of in Ha. cbn [app skipn] in Ha.
  apply in_map_iff in Ha as (t & <- & Ht).
  apply filter_In in Ht as [Ht Hex].
  destruct (lstrip_slash_spec (snd t)) as (k & Hk & Hp).
  exists t, k. repeat split; assumption.
Qed.

(** ** The retention manager *)

(** X8. When the listing of the remote fails the retention manager logs
    the failure and raises with the listing's error text: the listing is
    the only process it starts, no delete call is made and the remote is
    left as it is. *)
Theorem failed_listing_deletes_nothing :
  forall cfg env w,
    code (outcome env (lsjson_cmd cfg)) <> 0%Z ->
    fst (manage_retention cfg env w)
    = Raise ("Rclone failed: " ++ err (outcome env (lsjson_cmd cfg))) /\
    spawned (snd (manage_retention cfg env w)) = (spawned w ++ [lsjson_cmd cfg])%list /\
    remote (snd (manage_retention cfg env w)) = remote w /\
    log_of (snd (manage_retention cfg env w))
    = (log_of w ++ checking_line
                   :: rclone_failure_lines (lsjson_cmd cfg)
                        (outcome env (lsjson_cmd cfg)))%list.
Proof.
  intros cfg env w H.
  rewrite manage_retention_unlisted by exact H. cbn [fst snd].
  unfold rclone_failed, rclone_failure_lines.
  apply Z.eqb_neq in H. autorewrite with world.
  rewrite remote_finished, H. autorewrite with world.
  repeat split. now rewrite <- !app_assoc.
Qed.

(** The remote cannot be reached: twenty backups stay. *)
Lemma failed_listing_deletes_nothing_witness :
  let env := failing (lsjson_cmd cfg21) {| code := 3; err := "directory not found" |} in
  fst (manage_retention cfg21 env (empty_world twenty_backups))
  = Raise "Rclone failed: directory not found" /\
  spawned (snd (manage_retention cfg21 env (empty_world twenty_backups)))
  = [lsjson_cmd cfg21] /\
  remote (snd (manage_retention cfg21 env (empty_world twenty_backups)))
  = twenty_backups.
Proof.
  intros env.
  destruct (failed_listing_deletes_nothing cfg21 env (empty_world twenty_backups))
    as (H1 & H2 & H3 & _); [vm_compute; discriminate|].
  split; [exact H1|]. split; [exact H2 | exact H3].
Defined.

Section Deletions.

Variable cfg : Config.
Variable env : Env.

(** Either every delete call for [D] succeeds or there is a first one that
    does not. *)
Lemma first_failed_delete (D : list RemoteEntry) :
  (forall d, In d D -> code (outcome env (purge_cmd cfg (Name d))) = 0%Z) \/
  exists P f S,
    D = (P ++ f :: S)%list /\
    (forall p, In p P -> code (outcome env (purge_cmd cfg (Name p))) = 0%Z) /\
    code (outcome env (purge_cmd cfg (Name f))) <> 0%Z.
Proof.
  induction D as [|d D IH].
  - left. intros d [].
  - destruct (Z.eq_dec (code (outcome env (purge_cmd cfg (Name d)))) 0) as [Hd|Hd].
    + destruct IH as [Hall|(P & f & S & -> & HP & Hf)].
      * left. intros d' [<-|Hd']; [exact Hd | now apply Hall].
      * right. exists (d :: P), f, S. repeat split; [|exact Hf].
        intros p [<-|Hp]; [exact Hd | now apply HP].
    + right. exists [], d, D. repeat split; [|exact Hd]. intros p [].
Qed.

(** The delete calls made for [D] are those for a part of [D] taken from
    its front. *)
Lemma purge_loop_calls (D : list RemoteEntry) (w : World) :
  exists P S,
    D = (P ++ S)%list /\
    spawned (snd (for_each D (purge_item cfg env) w))
    = (spawned w ++ map (fun d => purge_cmd cfg (Name d)) P)%list.
Proof.
  destruct (first_failed_delete D) as [Hall|(P & f & S & -> & HP & Hf)].
  - exists D, []. rewrite app_nil_r. split; [reflexivity|].
    rewrite purge_loop_ok by exact Hall. cbn [snd]. now autorewrite with world.
  - exists (P ++ [f])%list, S. rewrite <- app_assoc. split; [reflexivity|].
    rewrite purge_loop_failed by assumption. cbn [snd].
    autorewrite with world. rewrite map_app, <- app_assoc. reflexivity.
Qed.

End Deletions.

Lemma sorted_front (l1 l2 : list RemoteEntry) :
  StronglySorted name_le (l1 ++ l2) -> StronglySorted name_le l1.
Proof.
  induction l1 as [|x l1 IH]; simpl; intros H; [constructor|].
  apply StronglySorted_inv in H as [Hs Hx].
  constructor; [now apply IH|].
  apply Forall_app in Hx. tauto.
Qed.

(** X9. Whatever the remote holds and however the commands end, the
    retention manager starts the listing and then only delete calls, and
    these are for entries [P] taken from the front of the [K - N] matching
    directories with the smallest names: each is a directory of the remote
    whose name follows the convention, there are at most [K - N] of them,
    they come in ascending order of name, and none of them has a name above
    that of one of the [N] directories that are kept. *)
Theorem retention_only_purges_oldest_matching :
  forall cfg env w,
    exists P S,
      firstn (length (backup_dirs_of w) - MAX_BACKUPS cfg) (backup_dirs_of w)
      = (P ++ S)%list /\
      spawned (snd (manage_retention cfg env w))
      = (spawned w ++ lsjson_cmd cfg :: map (fun d => purge_cmd cfg (Name d)) P)%list /\
      (forall p, In p P ->
                 In p (remote w) /\ IsDir p = true /\ matches_convention p = true) /\
      length P <= count_backups (remote w) - MAX_BACKUPS cfg /\
      StronglySorted name_le P /\
      (forall p r,
          In p P ->
          In r (skipn (length (backup_dirs_of w) - MAX_BACKUPS cfg) (backup_dirs_of w)) ->
          name_le p r).
Proof.
  intros cfg env w.
  set (n := length (backup_dirs_of w) - MAX_BACKUPS cfg).
  assert (Hcalls : exists P S,
             firstn n (backup_dirs_of w) = (P ++ S)%list /\
             spawned (snd (manage_retention cfg env w))
             = (spawned w ++ lsjson_cmd cfg
                  :: map (fun d => purge_cmd cfg (Name d)) P)%list).
  { destruct (Z.eq_dec (code (outcome env (lsjson_cmd cfg))) 0) as [Hls|Hls].
    - rewrite manage_retention_listed by exact Hls. fold n.
      destruct (Nat.ltb_spec (MAX_BACKUPS cfg) (length (backup_dirs_of w))) as [Hlt|Hle].
      + destruct (purge_loop_calls cfg env (firstn n (backup_dirs_of w))
                    (logged (exceeded_line (length (firstn n (backup_dirs_of w))))
                       (listed cfg env w))) as (P & S & HD & Hsp).
        exists P, S. split; [exact HD|]. rewrite Hsp.
        autorewrite with world. now rewrite <- app_assoc.
      + exists [], []. replace n with 0 by (unfold n; lia).
        split; [reflexivity|]. cbn [snd map]. now autorewrite with world.
    - exists [], (firstn n (backup_dirs_of w)). split; [reflexivity|].
      rewrite manage_retention_unlisted by exact Hls. cbn [snd map].
      now autorewrite with world. }
  destruct Hcalls as (P & S & HD & Hsp). exists P, S.
  assert (Hin : forall p, In p P -> In p (firstn n (backup_dirs_of w))).
  { intros p Hp. rewrite HD. apply in_or_app. now left. }
  assert (Hsorted : StronglySorted name_le (firstn n (backup_dirs_of w)
                                            ++ skipn n (backup_dirs_of w))).
  { rewrite firstn_skipn. apply sort_by_name_sorted. }
  split; [exact HD|]. split; [exact Hsp|]. split; [|split; [|split]].
  - intros p Hp. apply Hin, in_firstn, in_backup_dirs_of in Hp as [Hp Hm].
    apply filter_In in Hp as [Hp Hd]. repeat split; assumption.
  - assert (Hlen : length (P ++ S)%list = n) .
    { rewrite <- HD, length_firstn. unfold n. lia. }
    rewrite length_app in Hlen. unfold n, backup_dirs_of in Hlen.
    rewrite sort_by_name_length in Hlen. unfold count_backups. lia.
  - apply sorted_front with S. rewrite <- HD.
    now apply sorted_front with (skipn n (backup_dirs_of w)).
  - intros p r Hp Hr. apply (sorted_app_le _ _ Hsorted); [now apply Hin | exact Hr].
Qed.

(** ** What a successful retention pass leaves *)

Lemma filter_swap {A} (f g : A -> bool) (l : list A) :
  filter f (filter g l) = filter g (filter f l).
Proof.
  induction l as [|x l IH]; simpl; [reflexivity|].
  destruct (f x) eqn:Ef, (g x) eqn:Eg; simpl; rewrite ?Ef, ?Eg, IH; reflexivity.
Qed.

Lemma kept_count_perm (q : RemoteEntry -> bool) (l l' : list RemoteEntry) :
  Permutation l l' -> length (filter q l) = length (filter q l').
Proof.
  induction 1 as [|x l l' _ IH|x y l|l l' l'' _ IH1 _ IH2]; simpl.
  - reflexivity.
  - destruct (q x); simpl; now rewrite IH.
  - destruct (q x), (q y); reflexivity.
  - now rewrite IH1.
Qed.

Lemma filter_none {A} (f : A -> bool) (l : list A) :
  (forall x, In x l -> f x = false) -> filter f l = [].
Proof.
  induction l as [|x l IH]; simpl; intros H; [reflexivity|].
  rewrite (H x) by now left. apply IH. intros y Hy. apply H. now right.
Qed.

Lemma filter_all {A} (f : A -> bool) (l : list A) :
  (forall x, In x l -> f x = true) -> filter f l = l.
Proof.
  induction l as [|x l IH]; simpl; intros H; [reflexivity|].
  rewrite (H x) by now left. f_equal. apply IH. intros y Hy. apply H. now right.
Qed.

Lemma purged_in_member names e :
  IsDir e = true -> In (Name e) names -> purged_in names e = true.
Proof.
  intros Hd Hn. unfold purged_in. rewrite Hd. simpl.
  apply existsb_exists. exists (Name e). split; [exact Hn | apply String.eqb_refl].
Qed.

(** Purging the [n] smallest names of a remote with unique directory names
    leaves as many matching directories as were not selected. *)
Lemma count_after_purge (n : nat) (r : list RemoteEntry) :
  NoDup (map Name (filter IsDir r)) ->
  count_backups
    (filter (fun e => negb (purged_in (map Name (firstn n (backup_dirs_of
               {| temp_dir := None; console := []; spawned := []; remote := r |}))) e)) r)
  = count_backups r - n.
Proof.
  intros Hnd. unfold backup_dirs_of, count_backups. cbn [remote].
  set (M := filter matches_convention (filter IsDir r)).
  set (D := firstn n (sort_by_name M)).
  set (R := skipn n (sort_by_name M)).
  set (q := fun e => negb (purged_in (map Name D) e)).
  destruct (oldest_split n M) as [Hperm _]. fold D R in Hperm.
  rewrite (filter_swap IsDir), (filter_swap matches_convention). fold M.
  rewrite <- (kept_count_perm q _ _ Hperm), filter_app.
  assert (HM : forall e, In e (D ++ R)%list -> IsDir e = true).
  { intros e He. apply (Permutation_in _ Hperm) in He.
    unfold M in He. apply filter_In in He as [He _]. now apply filter_In in He. }
  assert (Huniq : NoDup (map Name D ++ map Name R)).
  { rewrite <- map_app.
    apply (Permutation_NoDup (Permutation_map Name (Permutation_sym Hperm))).
    now apply unique_names_filter. }
  rewrite filter_none, filter_all.
  - cbn [app]. unfold R. rewrite length_skipn, sort_by_name_length. reflexivity.
  - intros e He. unfold q.
    destruct (purged_in (map Name D) e) eqn:Hp; [|reflexivity]. exfalso.
    apply purged_in_exists in Hp as [_ Hn].
    apply (NoDup_app_disjoint _ _ (Name e) Huniq Hn). now apply in_map.
  - intros e He. unfold q. rewrite purged_in_member; [reflexivity | |now apply in_map].
    apply HM, in_or_app. now left.
Qed.

(** What a pass with a successful listing and successful delete calls
    returns and how many matching directories it leaves. *)
Lemma successful_pass_count cfg env w :
  code (outcome env (lsjson_cmd cfg)) = 0%Z ->
  (forall e, In e (filter IsDir (remote w)) -> matches_convention e = true ->
             code (outcome env (purge_cmd cfg (Name e))) = 0%Z) ->
  NoDup (map Name (filter IsDir (remote w))) ->
  fst (manage_retention cfg env w) = Ok tt /\
  count_backups (remote (snd (manage_retention cfg env w)))
  = Nat.min (count_backups (remote w)) (MAX_BACKUPS cfg).
Proof.
  intros Hls Hpurge Hnd.
  assert (HK : length (backup_dirs_of w) = count_backups (remote w)).
  { unfold backup_dirs_of, count_backups. now rewrite sort_by_name_length. }
  rewrite (manage_retention_listed cfg env w Hls).
  destruct (Nat.ltb_spec (MAX_BACKUPS cfg) (length (backup_dirs_of w))) as [Hlt|Hle].
  - set (D := firstn (length (backup_dirs_of w) - MAX_BACKUPS cfg) (backup_dirs_of w)).
    assert (HD : forall d, In d D -> code (outcome env (purge_cmd cfg (Name d))) = 0%Z).
    { intros d Hd. apply in_firstn, in_backup_dirs_of in Hd as [Hd Hm].
      now apply Hpurge. }
    rewrite purge_loop_ok by exact HD. cbn [fst snd]. split; [reflexivity|].
    rewrite remote_purged by exact HD. autorewrite with world.
    unfold D. rewrite HK.
    pose proof (count_after_purge (count_backups (remote w) - MAX_BACKUPS cfg)
                  (remote w) Hnd) as Hc.
    unfold backup_dirs_of in Hc |- *. cbn [remote] in Hc. rewrite Hc. lia.
  - cbn [fst snd]. split; [reflexivity|]. autorewrite with world. lia.
Qed.

(** X10. After a retention pass in which the listing and the delete calls
    succeed, on a remote whose directories have distinct names, the number
    of directories that follow the naming convention is the smaller of what
    it was and the retention limit. *)
Theorem retention_leaves_at_most_limit :
  forall cfg env w,
    code (outcome env (lsjson_cmd cfg)) = 0%Z ->
    (forall e, In e (filter IsDir (remote w)) -> matches_convention e = true ->
               code (outcome env (purge_cmd cfg (Name e))) = 0%Z) ->
    NoDup (map Name (filter IsDir (remote w))) ->
    fst (manage_retention cfg env w) = Ok tt /\
    count_backups (remote (snd (manage_retention cfg env w)))
    = Nat.min (count_backups (remote w)) (MAX_BACKUPS cfg).
Proof.
  intros cfg env w. apply successful_pass_count.
Qed.

(** Twenty backups and two entries that do not count: fourteen remain. *)
Lemma retention_leaves_at_most_limit_witness :
  let w := empty_world (twenty_backups ++ [dir "lost+found";
                                           {| Name := "notes.txt"; IsDir := false |}]) in
  fst (manage_retention cfg21 all_ok w) = Ok tt /\
  count_backups (remote (snd (manage_retention cfg21 all_ok w))) = 14.
Proof.
  intros w.
  apply (retention_leaves_at_most_limit cfg21 all_ok w);
    [reflexivity | reflexivity |].
  match goal with
  | |- NoDup ?names =>
      replace names with (nodup string_dec names) by (vm_compute; reflexivity)
  end.
  apply NoDup_nodup.
Defined.

(** X11. A retention pass that succeeded needs no second one: run again on
    what it left, under the same conditions, the retention manager lists
    the remote, makes no delete call and leaves the remote as it is. *)
Theorem retention_is_idempotent :
  forall cfg env w,
    code (outcome env (lsjson_cmd cfg)) = 0%Z ->
    (forall e, In e (filter IsDir (remote w)) -> matches_convention e = true ->
               code (outcome env (purge_cmd cfg (Name e))) = 0%Z) ->
    NoDup (map Name (filter IsDir (remote w))) ->
    let w1 := snd (manage_retention cfg env w) in
    fst (manage_retention cfg env w1) = Ok tt /\
    spawned (snd (manage_retention cfg env w1)) = (spawned w1 ++ [lsjson_cmd cfg])%list /\
    remote (snd (manage_retention cfg env w1)) = remote w1.
Proof.
  intros cfg env w Hls Hpurge Hnd w1.
  destruct (successful_pass_count cfg env w Hls Hpurge Hnd) as [_ Hcount].
  fold w1 in Hcount.
  assert (HK : length (backup_dirs_of w1) <= MAX_BACKUPS cfg).
  { unfold backup_dirs_of. rewrite sort_by_name_length.
    unfold count_backups in Hcount. rewrite Hcount. lia. }
  rewrite (manage_retention_listed cfg env w1 Hls).
  destruct (Nat.ltb_spec (MAX_BACKUPS cfg) (length (backup_dirs_of w1))); [lia|].
  cbn [fst snd]. autorewrite with world. repeat split.
Qed.

(** The second pass over the twenty backups. *)
Lemma retention_is_idempotent_witness :
  let w1 := snd (manage_retention cfg21 all_ok (empty_world twenty_backups)) in
  fst (manage_retention cfg21 all_ok w1) = Ok tt /\
  spawned (snd (manage_retention cfg21 all_ok w1)) = (spawned w1 ++ [lsjson_cmd cfg21])%list /\
  remote (snd (manage_retention cfg21 all_ok w1)) = remote w1.
Proof.
  apply (retention_is_idempotent cfg21 all_ok (empty_world twenty_backups));
    [reflexivity | reflexivity |].
  match goal with
  | |- NoDup ?names =>
      replace names with (nodup string_dec names) by (vm_compute; reflexivity)
  end.
  apply NoDup_nodup.
Defined.

(** ** What a run starts and logs *)

Section Runs.

Variable cfg : Config.
Variable env : Env.
Variable Pc : list string -> bool.
Variable Pl : LogEntry -> bool.










End Runs.



Section JobRuns.

Variable cfg : Config.
Variable env : Env.






End JobRuns.

(** ** The whole run *)

Section WholeRun.

Variable cfg : Config.
Variable env : Env.



(** What the retention manager starts begins with the listing. *)
Lemma retention_starts_with_listing w :
  exists rest,
    spawned (snd (manage_retention cfg env w))
    = (spawned w ++ lsjson_cmd cfg :: rest)%list.
Proof.
  destruct (Z.eq_dec (code (outcome env (lsjson_cmd cfg))) 0) as [Hls|Hls].
  - rewrite manage_retention_listed by exact Hls.
    destruct (MAX_BACKUPS cfg <? length (backup_dirs_of w))%nat.
    + set (D := firstn _ _). set (w1 := logged _ _).
      destruct (purge_loop_calls cfg env D w1) as (P & S & _ & Hsp).
      exists (map (fun d => purge_cmd cfg (Name d)) P). rewrite Hsp.
      unfold w1. autorewrite with world. now rewrite <- app_assoc.
    + exists []. cbn [snd]. now autorewrite with world.
  - exists []. rewrite manage_retention_unlisted by exact Hls. cbn [snd].
    now autorewrite with world.
Qed.

(** The world in which the file archive job starts, when the database job
    returned normally. *)
Lemma steps_after_database_job w :
  code (outcome env (rcat_db_cmd cfg)) = 0%Z ->
  code (outcome env (dump_cmd cfg)) = 0%Z ->
  backup_steps cfg env w
  = (backup_files_stream cfg env ;; manage_retention cfg env)%backup
      (logged db_done_line (db_streamed cfg env (made_dir cfg env w))).
Proof.
  intros Hr Hd. rewrite backup_steps_run.
  now erewrite bind_Ok by (apply database_job_ignores_gzip; assumption).
Qed.

Lemma steps_database_job_raises w :
  code (outcome env (rcat_db_cmd cfg)) <> 0%Z \/
  code (outcome env (dump_cmd cfg)) <> 0%Z ->
  exists msg,
    backup_steps cfg env w = (Raise msg, db_streamed cfg env (made_dir cfg env w)).
Proof.
  intros H. rewrite backup_steps_run.
  assert (Hdb : exists msg,
             backup_database_stream cfg env (made_dir cfg env w)
             = (Raise msg, db_streamed cfg env (made_dir cfg env w))).
  { rewrite backup_database_stream_run.
    destruct (Z.eqb_spec (code (outcome env (rcat_db_cmd cfg))) 0) as [Hr|Hr];
      cbn [negb]; [|eexists; reflexivity].
    destruct (Z.eqb_spec (code (outcome env (dump_cmd cfg))) 0) as [Hd|Hd];
      cbn [negb]; [|eexists; reflexivity].
    destruct H; contradiction. }
  destruct Hdb as [msg Hdb]. exists msg.
  now erewrite bind_Raise by exact Hdb.
Qed.

Lemma spawned_after_run w :
  spawned (snd (perform_backup cfg env w))
  = (spawned (snd (backup_steps cfg env (logged (started_line cfg) w)))
     ++ [copy_log_cmd cfg])%list.
Proof.
  rewrite perform_backup_run.
  destruct (backup_steps cfg env (logged (started_line cfg) w)) as [[[]|e] w1];
    cbn [snd]; now autorewrite with world.
Qed.

End WholeRun.



Section WhenRetentionRuns.

Variable cfg : Config.
Variable env : Env.

Lemma listing_is_no_other_command :
  ~ In (lsjson_cmd cfg)
       [mkdir_cmd cfg; dump_cmd cfg; gzip_cmd; rcat_db_cmd cfg;
        tar_cmd_of cfg env; rcat_files_cmd cfg; copy_log_cmd cfg].
Proof.
  unfold lsjson_cmd, mkdir_cmd, dump_cmd, gzip_cmd, rcat_db_cmd, tar_cmd_of,
    rcat_files_cmd, copy_log_cmd.
  cbn [app]. intros H. cbn [In] in H.
  repeat (destruct H as [H|H]; [discriminate H|]). exact H.
Qed.

(** With a target on disk the file archive job starts its two processes
    and returns normally or raises according to their statuses. *)
Lemma files_job_outcome w :
  existing_targets cfg env <> [] ->
  exists r w2,
    backup_files_stream cfg env w = (r, w2) /\
    spawned w2 = (spawned w ++ [tar_cmd_of cfg env; rcat_files_cmd cfg])%list /\
    (r = Ok tt <->
     code (outcome env (rcat_files_cmd cfg)) = 0%Z /\
     (code (outcome env (tar_cmd_of cfg env)) <= 1)%Z).
Proof.
  intros He. rewrite backup_files_stream_run by exact He.
  destruct (Z.eqb_spec (code (outcome env (rcat_files_cmd cfg))) 0) as [Hr|Hr];
    cbn [negb].
  - destruct (Z.ltb_spec 1 (code (outcome env (tar_cmd_of cfg env)))) as [Ht|Ht].
    + eexists. eexists. split; [reflexivity|]. autorewrite with world.
      split; [reflexivity|]. split; [discriminate | lia].
    + destruct (code (outcome env (tar_cmd_of cfg env)) =? 1)%Z;
        (eexists; eexists; split; [reflexivity|]; autorewrite with world;
         split; [reflexivity|]; split; [now intros _ | reflexivity]).
  - eexists. eexists. split; [reflexivity|]. autorewrite with world.
    split; [reflexivity|]. split; [discriminate | tauto].
Qed.

End WhenRetentionRuns.

(** X14. The retention manager runs exactly when both stream jobs returned
    normally: the listing of the remote is among the processes of a run if
    and only if the upload and the dump stage of the database job ended
    with status 0 and the file archive job either found no target or ended
    with upload status 0 and an archive status of at most 1. *)
Theorem retention_runs_iff_jobs_succeed :
  forall cfg env w,
    exists cmds,
      spawned (snd (perform_backup cfg env w)) = (spawned w ++ cmds)%list /\
      (In (lsjson_cmd cfg) cmds <->
       (code (outcome env (rcat_db_cmd cfg)) = 0%Z /\
        code (outcome env (dump_cmd cfg)) = 0%Z) /\
       (existing_targets cfg env = [] \/
        (code (outcome env (rcat_files_cmd cfg)) = 0%Z /\
         (code (outcome env (tar_cmd_of cfg env)) <= 1)%Z))).
Proof.
  intros cfg env w. rewrite spawned_after_run.
  set (w0 := logged (started_line cfg) w).
  pose proof (listing_is_no_other_command cfg env) as Hnot. cbn [In] in Hnot.
  assert (Hfail :
            code (outcome env (rcat_db_cmd cfg)) <> 0%Z \/
            code (outcome env (dump_cmd cfg)) <> 0%Z ->
            exists cmds,
              (spawned (snd (backup_steps cfg env w0)) ++ [copy_log_cmd cfg])%list
              = (spawned w ++ cmds)%list /\
              (In (lsjson_cmd cfg) cmds <->
               (code (outcome env (rcat_db_cmd cfg)) = 0%Z /\
                code (outcome env (dump_cmd cfg)) = 0%Z) /\
               (existing_targets cfg env = [] \/
                (code (outcome env (rcat_files_cmd cfg)) = 0%Z /\
                 (code (outcome env (tar_cmd_of cfg env)) <= 1)%Z)))).
  { intros Hdb. destruct (steps_database_job_raises cfg env w0 Hdb) as [msg ->].
    exists [mkdir_cmd cfg; dump_cmd cfg; gzip_cmd; rcat_db_cmd cfg; copy_log_cmd cfg].
    split.
    - cbn [snd]. unfold w0. autorewrite with world. now rewrite <- !app_assoc.
    - cbn [In]. tauto. }
  destruct (Z.eq_dec (code (outcome env (rcat_db_cmd cfg))) 0) as [Hr|Hr];
    [|now apply Hfail; left].
  destruct (Z.eq_dec (code (outcome env (dump_cmd cfg))) 0) as [Hd|Hd];
    [|now apply Hfail; right].
  clear Hfail. rewrite steps_after_database_job by assumption.
  set (w1 := logged db_done_line (db_streamed cfg env (made_dir cfg env w0))).
  assert (Hw1 : spawned w1
                = (spawned w ++ [mkdir_cmd cfg; dump_cmd cfg; gzip_cmd;
                                 rcat_db_cmd cfg])%list).
  { unfold w1, w0. autorewrite with world. now rewrite <- !app_assoc. }
  destruct (existing_targets cfg env) as [|t l] eqn:He.
  - erewrite bind_Ok by (apply backup_files_stream_skip; exact He).
    set (w2 := logged no_targets_line _).
    destruct (retention_starts_with_listing cfg env w2) as [rest Hrest].
    exists ([mkdir_cmd cfg; dump_cmd cfg; gzip_cmd; rcat_db_cmd cfg]
            ++ lsjson_cmd cfg :: rest ++ [copy_log_cmd cfg])%list.
    split.
    + rewrite Hrest. unfold w2. autorewrite with world. rewrite Hw1.
      rewrite <- !app_assoc. reflexivity.
    + split; [intros _; tauto|]. intros _.
      apply in_or_app. right. now left.
  - destruct (files_job_outcome cfg env w1) as (r & w2 & Hrun & Hsp & Hok);
      [rewrite He; discriminate|].
    rewrite <- He in *.
    destruct r as [[]|e].
    + erewrite bind_Ok by exact Hrun.
      destruct (retention_starts_with_listing cfg env w2) as [rest Hrest].
      exists ([mkdir_cmd cfg; dump_cmd cfg; gzip_cmd; rcat_db_cmd cfg;
               tar_cmd_of cfg env; rcat_files_cmd cfg]
              ++ lsjson_cmd cfg :: rest ++ [copy_log_cmd cfg])%list.
      split.
      * rewrite Hrest, Hsp, Hw1. rewrite <- !app_assoc. reflexivity.
      * split.
        -- intros _. split; [tauto|]. right. now apply Hok.
        -- intros _. apply in_or_app. right. now left.
    + erewrite bind_Raise by exact Hrun.
      exists [mkdir_cmd cfg; dump_cmd cfg; gzip_cmd; rcat_db_cmd cfg;
              tar_cmd_of cfg env; rcat_files_cmd cfg; copy_log_cmd cfg].
      split.
      * cbn [snd]. rewrite Hsp, Hw1. rewrite <- !app_assoc. reflexivity.
      * split; [cbn [In]; tauto|].
        intros [_ [Hnone|Hfiles]]; [rewrite He in Hnone; discriminate|].
        apply Hok in Hfiles. discriminate.
Qed.

(** * The script when its own calls can fail *)

(** Without faults [Fallible] is the script of the first part. *)
Lemma fallible_perform_backup_no_faults (cfg : Config) (env : Env) :
  Fallible.perform_backup cfg env no_faults = perform_backup cfg env.
Proof. reflexivity. Qed.

Lemma fallible_main_no_faults (cfg : Config) (env : Env) :
  Fallible.main cfg env no_faults = main cfg env.
Proof. reflexivity. Qed.

Section FallibleRuns.

Variable cfg : Config.
Variable env : Env.
Variable faults : Faults.

(** What [log] returns and leaves, by what can go wrong. *)
Lemma fallible_log_run message lvl w :
  Fallible.log cfg faults message lvl w =
  if match temp_dir w with Some _ => true | None => can_make_temp faults end then
    if can_append faults (log_of w) then
      (Ok tt, logged {| level := lvl; message := message |} w)
    else
      (Raise ("OSError: " ++ LOG_FILE_PATH cfg),
       printed (entry_text {| level := lvl; message := message |})
         {| temp_dir := Some (log_of w); console := console w;
            spawned := spawned w; remote := remote w |})
  else (Raise ("PermissionError: " ++ TEMP_DIR cfg), w).
Proof.
  unfold Fallible.log, Fallible.ensure_temp_dir, Fallible.makedirs_temp,
    Fallible.append_log, temp_dir_exists, print, bind, ret, logged, printed, log_of.
  destruct (temp_dir w) as [l|] eqn:E; cbn; rewrite ?E; cbn.
  - destruct (can_append faults l); reflexivity.
  - destruct (can_make_temp faults); cbn; [|reflexivity].
    destruct (can_append faults []); reflexivity.
Qed.

Lemma fallible_log_ok message lvl w :
  can_make_temp faults = true ->
  (forall l, can_append faults l = true) ->
  Fallible.log cfg faults message lvl w
  = (Ok tt, logged {| level := lvl; message := message |} w).
Proof.
  intros Hm Ha. rewrite fallible_log_run, Hm, Ha. now destruct (temp_dir w).
Qed.

(** When the [finally] block returns, [TEMP_DIR] is gone. *)
Lemma finally_returns_clean w w' :
  Fallible.upload_log_and_clean cfg env faults w = (Ok tt, w') ->
  temp_dir w' = None.
Proof.
  unfold Fallible.upload_log_and_clean, bind.
  destruct (Fallible.log cfg faults _ _ w) as [[[]|e] w1]; [|discriminate].
  destruct (Fallible.subprocess_run cfg env faults _ w1) as [[r|e] w2]; [|discriminate].
  unfold temp_dir_exists, Fallible.rmtree_temp, ret.
  destruct (temp_dir w2) eqn:E.
  - destruct (can_remove faults); [|discriminate].
    intros H. inversion H. reflexivity.
  - intros H. inversion H. subst. exact E.
Qed.

Lemma finally_returns w :
  can_make_temp faults = true ->
  (forall l, can_append faults l = true) ->
  can_start faults (copy_log_cmd cfg) = true ->
  can_remove faults = true ->
  exists w', Fallible.upload_log_and_clean cfg env faults w = (Ok tt, w').
Proof.
  intros Hm Ha Hs Hr. unfold Fallible.upload_log_and_clean.
  erewrite bind_Ok by (apply fallible_log_ok; assumption).
  unfold bind, Fallible.subprocess_run. fold (copy_log_cmd cfg). rewrite Hs.
  unfold temp_dir_exists, Fallible.rmtree_temp, ret. rewrite Hr.
  match goal with |- context [match temp_dir ?x with _ => _ end] =>
    destruct (temp_dir x) end; eexists; reflexivity.
Qed.

Lemma run_returns_clean w w' :
  Fallible.perform_backup cfg env faults w = (Ok tt, w') -> temp_dir w' = None.
Proof.
  unfold Fallible.perform_backup, bind, try_finally.
  destruct (Fallible.ensure_temp_dir cfg faults w) as [[[]|e0] w0]; [|discriminate].
  destruct (Fallible.log cfg faults _ _ w0) as [[[]|e1] w1]; [|discriminate].
  destruct (try_except _ _ w1) as [r w2].
  destruct (Fallible.upload_log_and_clean cfg env faults w2) as [[[]|e3] w3] eqn:F;
    [|discriminate].
  intros H. inversion H. subst. exact (finally_returns_clean _ _ F).
Qed.

(** The run returns when the orchestrator's own calls succeed, whatever
    the guarded steps do. *)
Lemma run_returns w :
  can_make_temp faults = true ->
  (forall l, can_append faults l = true) ->
  can_start faults (copy_log_cmd cfg) = true ->
  can_remove faults = true ->
  fst (Fallible.perform_backup cfg env faults w) = Ok tt.
Proof.
  intros Hm Ha Hs Hr. unfold Fallible.perform_backup.
  assert (He : exists w0, Fallible.ensure_temp_dir cfg faults w = (Ok tt, w0)).
  { unfold Fallible.ensure_temp_dir, Fallible.makedirs_temp, temp_dir_exists, bind, ret.
    destruct (temp_dir w) eqn:E; cbn; rewrite ?E, ?Hm; eexists; reflexivity. }
  destruct He as [w0 He].
  erewrite bind_Ok by exact He.
  erewrite bind_Ok by (apply fallible_log_ok; assumption).
  unfold try_finally, try_except.
  destruct (Fallible.backup_steps cfg env faults _) as [[[]|e] w1].
  - destruct (finally_returns w1 Hm Ha Hs Hr) as [w' ->]. reflexivity.
  - rewrite fallible_log_ok by assumption.
    destruct (finally_returns (logged {| level := ERROR;
                                         message := "Backup failed: " ++ e |} w1)
                Hm Ha Hs Hr) as [w' ->].
    reflexivity.
Qed.

End FallibleRuns.

(** [rclone] is missing: the guarded steps raise at the first command, the
    failure is logged, and the upload of the log in the [finally] block
    raises in turn; the process ends with status 1 and [TEMP_DIR] stays. *)
Lemma root_run_without_rclone :
  fst (Fallible.main cfg21 all_ok without_rclone (empty_world twenty_backups)) = 1%Z /\
  fst (Fallible.perform_backup cfg21 all_ok without_rclone (empty_world twenty_backups))
  = Raise "FileNotFoundError: rclone" /\
  temp_dir (snd (Fallible.perform_backup cfg21 all_ok without_rclone
                   (empty_world twenty_backups)))
  = Some [ started_line cfg21; failed_line "FileNotFoundError: rclone"; closing_line ].
Proof.
  split; [vm_compute; reflexivity|].
  split; vm_compute; reflexivity.
Qed.

(** The log cannot be written any more when the [finally] block starts:
    the run raises there and [TEMP_DIR] stays. *)
Lemma root_run_with_full_disk :
  fst (Fallible.main cfg21 (failing (dump_cmd cfg21) {| code := 2; err := "" |})
         (log_full_at 3) (empty_world []))
  = 1%Z /\
  temp_dir (snd (Fallible.perform_backup cfg21
                   (failing (dump_cmd cfg21) {| code := 2; err := "" |})
                   (log_full_at 3) (empty_world [])))
  <> None.
Proof.
  split; [vm_compute; reflexivity|]. vm_compute. discriminate.
Qed.

(** C9. When [perform_backup] returns, [TEMP_DIR] does not exist, whatever
    the guarded steps did and whether or not they raised.  And it does
    return, whatever the guarded steps do, when its own calls succeed:
    the directory can be made, the log written, the upload of the log
    started and the directory removed. *)
Theorem workspace_removed_when_run_returns :
  forall cfg env faults w,
    (fst (Fallible.perform_backup cfg env faults w) = Ok tt ->
     temp_dir (snd (Fallible.perform_backup cfg env faults w)) = None) /\
    (can_make_temp faults = true ->
     (forall l, can_append faults l = true) ->
     can_start faults (copy_log_cmd cfg) = true ->
     can_remove faults = true ->
     fst (Fallible.perform_backup cfg env faults w) = Ok tt).
Proof.
  intros cfg env faults w. split.
  - destruct (Fallible.perform_backup cfg env faults w) as [r w'] eqn:E.
    cbn [fst snd]. intros ->. exact (run_returns_clean _ _ _ _ _ E).
  - apply run_returns.
Qed.

(** [mysqldump] is missing, so the guarded steps raise; the run returns and
    [TEMP_DIR] is gone. *)
Lemma workspace_removed_when_run_returns_witness :
  fst (Fallible.backup_steps cfg21 all_ok without_mysqldump
         (logged (started_line cfg21) (empty_world twenty_backups)))
  = Raise "FileNotFoundError: mysqldump" /\
  fst (Fallible.perform_backup cfg21 all_ok without_mysqldump (empty_world twenty_backups))
  = Ok tt /\
  temp_dir (snd (Fallible.perform_backup cfg21 all_ok without_mysqldump
                   (empty_world twenty_backups)))
  = None.
Proof.
  split; [vm_compute; reflexivity|].
  destruct (workspace_removed_when_run_returns cfg21 all_ok without_mysqldump
              (empty_world twenty_backups)) as [Hgone Hret].
  assert (H : fst (Fallible.perform_backup cfg21 all_ok without_mysqldump
                     (empty_world twenty_backups)) = Ok tt).
  { apply Hret; [reflexivity | intros l; reflexivity | reflexivity | reflexivity]. }
  split; [exact H | exact (Hgone H)].
Defined.

(** C6. Run as another user the process prints one line and ends with
    status 1, and the scratch directory, the processes and the remote are
    as they were.  Run as root it ends with status 0 exactly when
    [perform_backup] returns, that is on every completed invocation; and
    [perform_backup] returns, whatever the guarded steps do and also when
    they raise, when its own calls succeed: the directory can be made, the
    log written, the upload of the log started and the directory removed. *)
Theorem exit_status_of_run :
  forall cfg env faults w,
    (euid env <> 0%Z ->
     fst (Fallible.main cfg env faults w) = 1%Z /\
     temp_dir (snd (Fallible.main cfg env faults w)) = temp_dir w /\
     spawned (snd (Fallible.main cfg env faults w)) = spawned w /\
     remote (snd (Fallible.main cfg env faults w)) = remote w /\
     console (snd (Fallible.main cfg env faults w))
     = (console w ++ ["Error: Must run as root."])%list) /\
    (euid env = 0%Z ->
     (fst (Fallible.main cfg env faults w) = 0%Z <->
      fst (Fallible.perform_backup cfg env faults w) = Ok tt)) /\
    (euid env = 0%Z ->
     can_make_temp faults = true ->
     (forall l, can_append faults l = true) ->
     can_start faults (copy_log_cmd cfg) = true ->
     can_remove faults = true ->
     fst (Fallible.main cfg env faults w) = 0%Z).
Proof.
  intros cfg env faults w. unfold Fallible.main.
  split; [|split].
  - intros H. apply Z.eqb_neq in H. rewrite H. cbn. repeat split.
  - intros H. rewrite H. cbn [Z.eqb negb].
    destruct (Fallible.perform_backup cfg env faults w) as [[[]|e] w']; cbn [fst].
    + split; reflexivity.
    + split; discriminate.
  - intros H Hm Ha Hs Hr. rewrite H. cbn [Z.eqb negb].
    pose proof (run_returns cfg env faults w Hm Ha Hs Hr) as R.
    destruct (Fallible.perform_backup cfg env faults w) as [[[]|e] w'];
      [reflexivity | discriminate R].
Qed.

(** As root with the dump stage ending with status 2, and with [mysqldump]
    missing altogether: the guarded steps raise and the status is 0.  As
    another user: status 1, no scratch directory. *)
Lemma exit_status_of_run_witness :
  let env := failing (dump_cmd cfg21) {| code := 2; err := "mysqldump: Got error: 1045" |} in
  fst (Fallible.backup_steps cfg21 env no_faults
         (logged (started_line cfg21) (empty_world twenty_backups)))
  = Raise "Mysqldump Failed: mysqldump: Got error: 1045" /\
  fst (Fallible.main cfg21 env no_faults (empty_world twenty_backups)) = 0%Z /\
  fst (Fallible.main cfg21 all_ok without_mysqldump (empty_world twenty_backups)) = 0%Z /\
  fst (Fallible.main cfg21 not_root no_faults (empty_world twenty_backups)) = 1%Z /\
  temp_dir (snd (Fallible.main cfg21 not_root no_faults (empty_world twenty_backups)))
  = None.
Proof.
  intros env.
  split; [vm_compute; reflexivity|].
  split.
  { apply (exit_status_of_run cfg21 env no_faults (empty_world twenty_backups));
      [reflexivity | reflexivity | intros l; reflexivity | reflexivity | reflexivity]. }
  split.
  { apply (exit_status_of_run cfg21 all_ok without_mysqldump (empty_world twenty_backups));
      [reflexivity | reflexivity | intros l; reflexivity | reflexivity | reflexivity]. }
  destruct (exit_status_of_run cfg21 not_root no_faults (empty_world twenty_backups))
    as [H _].
  destruct H as (H1 & H2 & _); [discriminate|].
  split; [exact H1 | exact H2].
Defined.

(** ** What the archive process is handed *)

(** X7. When some target exists the file archive job starts [tar -czf - -C
    /] followed by path arguments each of which is relative: it is the path
    of a configured target that exists, with all its leading slashes
    removed and nothing else changed, and it does not begin with a slash. *)
Theorem archive_paths_are_relative :
  forall cfg env w,
    existing_targets cfg env <> [] ->
    exists paths,
      spawned (snd (backup_files_stream cfg env w))
      = (spawned w ++ [ (["tar"; "-czf"; "-"; "-C"; "/"] ++ paths)%list;
                        rcat_files_cmd cfg ])%list /\
      forall a, In a paths ->
                exists t k,
                  In t (BACKUP_TARGETS cfg) /\
                  path_exists env (snd t) = true /\
                  snd t = slashes k ++ a /\
                  prefix "/" a = false.
Proof.
  intros cfg env w He.
  destruct (files_job_outcome cfg env w He) as (r & w2 & Hrun & Hsp & _).
  exists (map (fun t => lstrip_slash (snd t)) (existing_targets cfg env)).
  split.
  - rewrite Hrun. cbn [snd]. exact Hsp.
  - intros a Ha. now apply (tar_cmd_paths_relative cfg env a).
Qed.

(** Every target exists: the process list of the job. *)
Lemma archive_paths_are_relative_witness :
  exists paths,
    spawned (snd (backup_files_stream cfg21 all_ok (empty_world [])))
    = [ (["tar"; "-czf"; "-"; "-C"; "/"] ++ paths)%list; rcat_files_cmd cfg21 ] /\
    forall a, In a paths ->
              exists t k,
                In t (BACKUP_TARGETS cfg21) /\
                path_exists all_ok (snd t) = true /\
                snd t = slashes k ++ a /\
                prefix "/" a = false.
Proof.
  apply (archive_paths_are_relative cfg21 all_ok (empty_world [])).
  discriminate.
Defined.

(** ** Logging *)

(** X15. [log] first makes [TEMP_DIR] if it is missing, then prints its
    line, then appends it to the log file.  It returns normally exactly
    when the directory exists or can be made and the file can be written,
    and then the line is the last of the file and of what is printed.
    When the directory cannot be made it raises and nothing is printed or
    changed.  When the file cannot be written it raises after the line was
    printed, and the file keeps the lines it had.  In no case does it start
    a process or change the remote. *)
Theorem log_contract :
  forall cfg faults message lvl w,
    let e := {| level := lvl; message := message |} in
    let dir_ready := match temp_dir w with Some _ => true | None => can_make_temp faults end in
    let r := Fallible.log cfg faults message lvl w in
    (fst r = Ok tt <-> dir_ready = true /\ can_append faults (log_of w) = true) /\
    (fst r = Ok tt ->
     temp_dir (snd r) = Some (log_of w ++ [e])%list /\
     console (snd r) = (console w ++ [entry_text e])%list) /\
    (dir_ready = false ->
     fst r = Raise ("PermissionError: " ++ TEMP_DIR cfg) /\ snd r = w) /\
    (dir_ready = true -> can_append faults (log_of w) = false ->
     fst r = Raise ("OSError: " ++ LOG_FILE_PATH cfg) /\
     console (snd r) = (console w ++ [entry_text e])%list /\
     log_of (snd r) = log_of w) /\
    spawned (snd r) = spawned w /\
    remote (snd r) = remote w.
Proof.
  intros cfg faults message lvl w e dir_ready r.
  unfold r. rewrite fallible_log_run. fold dir_ready e.
  destruct dir_ready; [destruct (can_append faults (log_of w))|]; cbn [fst snd].
  - repeat split; try discriminate; tauto.
  - split; [split; [discriminate | intros [_ H]; discriminate H]|].
    split; [discriminate|]. split; [discriminate|].
    repeat split.
  - split; [split; [discriminate | intros [H _]; discriminate H]|].
    split; [discriminate|]. split; [intros _; split; reflexivity|].
    split; [intros H; discriminate H|]. split; reflexivity.
Qed.
